(** * Exchange-rate providers: a model of [exchange/currency_provider.py]

    The module defines four providers (monobank, privatbank, the national
    bank and VKurse).  Each [get_rate] performs one HTTP GET, checks the
    status, parses the body as JSON, looks for the record of the requested
    currency pair and converts it to a [SellBuy] value, or raises
    [RateNotFound].

    The embedding is shallow.  Python values coming out of
    [response.json()] are the inductive type [json]; Python floats are
    binary64 numbers ([PrimFloat.float]); exceptions are the inductive type
    [exn]; a method body is a computation in a small monad [M] that threads
    the object store and the log of calls made on the HTTP layer. *)

From Stdlib Require Import ZArith List String Ascii Bool.
From Stdlib Require Import Floats.
Import ListNotations.

#[local] Set Warnings "-register-all".
Local Open Scope string_scope.
Local Open Scope Z_scope.

(** ** Exceptions and results *)

Inductive exn : Type :=
| RateNotFound (msg : string)      (* the module's own exception *)
| KeyError (key : string)          (* dict subscript on a missing key *)
| TypeError                        (* operation on a value of the wrong type *)
| ValueError                       (* float() on a string that is no number *)
| OverflowError                    (* int too large to convert to float *)
| AttributeError                   (* .get on a value that is no dict *)
| HTTPError (status : Z)           (* raised by raise_for_status *)
| RequestException (info : string) (* raised by requests.get itself *)
| JSONDecodeError.                 (* raised by response.json() *)

Inductive result (A : Type) : Type :=
| Ok (a : A)
| Raise (e : exn).
Arguments Ok {A} a.
Arguments Raise {A} e.

Definition is_ok {A} (r : result A) : bool :=
  match r with Ok _ => true | Raise _ => false end.

Definition is_rate_not_found {A} (r : result A) : bool :=
  match r with Raise (RateNotFound _) => true | _ => false end.

Definition rbind {A B} (r : result A) (k : A -> result B) : result B :=
  match r with
  | Ok a => k a
  | Raise e => Raise e
  end.

Notation "x <~ r ;; k" := (rbind r (fun x => k))
  (at level 61, r at next level, right associativity).

(** ** The value type [SellBuy] (a dataclass with two float fields) *)

Record SellBuy : Type := mkSellBuy { sell : float; buy : float }.

(** ** Parsed JSON documents

    [json.loads] yields [None], [bool], [int], [float], [str], [list] and
    [dict] values.  A dict is kept as the list of its items, in insertion
    order; its keys are pairwise distinct in Python, and [dict_lookup] takes
    the item stored under the key.  A str is kept as the UTF-8 bytes of
    its text, so that two strs are equal when their bytes are. *)

Inductive json : Type :=
| JNull
| JBool (b : bool)
| JInt (z : Z)
| JFloat (f : float)
| JStr (s : string)
| JList (l : list json)
| JDict (d : list (string * json)).

Fixpoint dict_lookup {V : Type} (k : string) (d : list (string * V)) : option V :=
  match d with
  | [] => None
  | (k', v) :: d' => if String.eqb k' k then Some v else dict_lookup k d'
  end.

(** ** Python floats *)

Module PyFloat.

(** The integer [m] rounded to the nearest binary64, ties to even. *)
Definition round_Z (m : Z) : float :=
  SF2Prim (binary_normalize prec emax m 0 false).

(** [(-1)^neg * m / 10^k], correctly rounded. *)
Definition round_ratio (neg : bool) (m : Z) (k : Z) : float :=
  match m with
  | Zpos p =>
      SF2Prim (SFdiv prec emax (S754_finite neg p 0)
                 (S754_finite false (Z.to_pos (10 ^ k)) 0))
  | _ => if neg then (-0)%float else 0%float
  end.

(** [(-1)^neg * m * 10^e] for a mantissa written with [nd] digits,
    correctly rounded.  Beyond the range of binary64 the result is an
    infinity or a zero whatever the mantissa, which the two first tests
    decide without computing the power. *)
Definition round_decimal (neg : bool) (m nd e : Z) : float :=
  if (m =? 0) then (if neg then (-0)%float else 0%float)
  else if (310 <? e) then (if neg then neg_infinity else infinity)
  else if (nd + e <? -330) then (if neg then (-0)%float else 0%float)
  else if (0 <=? e) then
    (if neg then PrimFloat.opp (round_Z (m * 10 ^ e)) else round_Z (m * 10 ^ e))
  else round_ratio neg m (- e).

(** [int.__float__]: exact rounding, [OverflowError] past the largest
    finite float. *)
Definition of_int (z : Z) : result float :=
  let f := round_Z z in
  if PrimFloat.is_infinity f then Raise OverflowError else Ok f.

(** *** [float(str)]

    The grammar of the string argument, after stripping white space:
    an optional sign, then [inf], [infinity] or [nan] in any letter
    case, or a decimal number [digits [. [digits]] | . digits] with an
    optional exponent; digits may be grouped by single underscores.
    The white space stripped is the ASCII one (tab to carriage return,
    and the space).

    A str is kept as the UTF-8 bytes of its text.  Before parsing,
    [float()] replaces every character from 127 on by a space when it is
    Unicode white space and by its ASCII digit when it is a Unicode
    decimal digit; any other such character makes the string invalid.
    The two tables are those of the Unicode database 14.0, the one of
    CPython 3.11. *)

Definition is_space (c : ascii) : bool :=
  let n := Z.of_nat (nat_of_ascii c) in
  ((9 <=? n) && (n <=? 13)) || (n =? 32).

Definition digit_of (c : ascii) : option Z :=
  let n := Z.of_nat (nat_of_ascii c) in
  if (48 <=? n) && (n <=? 57) then Some (n - 48) else None.

Definition lower (c : ascii) : ascii :=
  let n := nat_of_ascii c in
  if (65 <=? Z.of_nat n) && (Z.of_nat n <=? 90)
  then ascii_of_nat (n + 32) else c.

Fixpoint lstrip (l : list ascii) : list ascii :=
  match l with
  | c :: l' => if is_space c then lstrip l' else l
  | [] => []
  end.

Definition strip (l : list ascii) : list ascii :=
  rev (lstrip (rev (lstrip l))).

(** The rest of a digit part whose first digit is read: [acc] is the
    number read so far and [n] the count of its digits. *)
Fixpoint digits_rest (l : list ascii) (acc n : Z) : Z * Z * list ascii :=
  match l with
  | c :: l' =>
      match digit_of c with
      | Some d => digits_rest l' (10 * acc + d) (n + 1)
      | None =>
          if Ascii.eqb c "_" then
            match l' with
            | c' :: l'' =>
                match digit_of c' with
                | Some d => digits_rest l'' (10 * acc + d) (n + 1)
                | None => (acc, n, l)
                end
            | [] => (acc, n, l)
            end
          else (acc, n, l)
      end
  | [] => (acc, n, l)
  end.

(** A digit part continuing the number [acc]; [None] when the input does
    not start with a digit. *)
Definition digitpart (l : list ascii) (acc : Z) : option (Z * Z * list ascii) :=
  match l with
  | c :: l' =>
      match digit_of c with
      | Some d => Some (digits_rest l' (10 * acc + d) 1)
      | None => None
      end
  | [] => None
  end.

Definition sign (l : list ascii) : bool * list ascii :=
  match l with
  | c :: l' =>
      if Ascii.eqb c "-" then (true, l')
      else if Ascii.eqb c "+" then (false, l')
      else (false, l)
  | [] => (false, l)
  end.

(** The optional exponent, up to the end of the input. *)
Definition exponent (l : list ascii) : option Z :=
  match l with
  | [] => Some 0
  | c :: l' =>
      if Ascii.eqb (lower c) "e" then
        let '(neg, l'') := sign l' in
        match digitpart l'' 0 with
        | Some (e, _, []) => Some (if neg then - e else e)
        | _ => None
        end
      else None
  end.

(** The mantissa: its digits as an integer, how many there are, how many
    of them follow the point, and the rest of the input. *)
Definition mantissa (l : list ascii) : option (Z * Z * Z * list ascii) :=
  match digitpart l 0 with
  | Some (m, n, l1) =>
      match l1 with
      | c :: l2 =>
          if Ascii.eqb c "." then
            match digitpart l2 m with
            | Some (m', k, l3) => Some (m', n + k, k, l3)
            | None => Some (m, n, 0, l2)
            end
          else Some (m, n, 0, l1)
      | [] => Some (m, n, 0, l1)
      end
  | None =>
      match l with
      | c :: l2 =>
          if Ascii.eqb c "." then
            match digitpart l2 0 with
            | Some (m', k, l3) => Some (m', k, k, l3)
            | None => None
            end
          else None
      | [] => None
      end
  end.

Definition of_chars (l : list ascii) : option float :=
  let '(neg, body) := sign (strip l) in
  let word := string_of_list_ascii (map lower body) in
  if String.eqb word "inf" || String.eqb word "infinity"
  then Some (if neg then neg_infinity else infinity)
  else if String.eqb word "nan" then Some nan
  else
    match mantissa body with
    | Some (m, nd, k, rest) =>
        match exponent rest with
        | Some e => Some (round_decimal neg m nd (e - k))
        | None => None
        end
    | None => None
    end.

(** A continuation byte of UTF-8 and the six bits it carries. *)
Definition continuation (c : ascii) : option Z :=
  let n := Z.of_nat (nat_of_ascii c) in
  if (128 <=? n) && (n <=? 191) then Some (n - 128) else None.

(** The code points of a UTF-8 byte sequence; [None] when the bytes are
    not the encoding of a text (a stray or missing continuation byte, an
    overlong form, a surrogate, a value past U+10FFFF). *)
Fixpoint utf8_decode (l : list ascii) : option (list Z) :=
  match l with
  | [] => Some []
  | c0 :: l1 =>
      let b0 := Z.of_nat (nat_of_ascii c0) in
      if b0 <? 128 then option_map (cons b0) (utf8_decode l1)
      else if (194 <=? b0) && (b0 <=? 223) then
        match l1 with
        | c1 :: l2 =>
            match continuation c1 with
            | Some x1 => option_map (cons ((b0 - 192) * 64 + x1)) (utf8_decode l2)
            | None => None
            end
        | _ => None
        end
      else if (224 <=? b0) && (b0 <=? 239) then
        match l1 with
        | c1 :: c2 :: l3 =>
            match continuation c1, continuation c2 with
            | Some x1, Some x2 =>
                let cp := (b0 - 224) * 4096 + x1 * 64 + x2 in
                if (2048 <=? cp) && negb ((55296 <=? cp) && (cp <=? 57343))
                then option_map (cons cp) (utf8_decode l3)
                else None
            | _, _ => None
            end
        | _ => None
        end
      else if (240 <=? b0) && (b0 <=? 244) then
        match l1 with
        | c1 :: c2 :: c3 :: l4 =>
            match continuation c1, continuation c2, continuation c3 with
            | Some x1, Some x2, Some x3 =>
                let cp := (b0 - 240) * 262144 + x1 * 4096 + x2 * 64 + x3 in
                if (65536 <=? cp) && (cp <=? 1114111)
                then option_map (cons cp) (utf8_decode l4)
                else None
            | _, _, _ => None
            end
        | _ => None
        end
      else None
  end.

(** Unicode white space from 127 on ([str.isspace]). *)
Definition unicode_space (cp : Z) : bool :=
  (cp =? 133) || (cp =? 160) || (cp =? 5760)
  || ((8192 <=? cp) && (cp <=? 8202))
  || (cp =? 8232) || (cp =? 8233) || (cp =? 8239) || (cp =? 8287)
  || (cp =? 12288).

(** The code points of the digit zero of every non-ASCII script with
    decimal digits; the nine other digits follow each of them. *)
Definition decimal_zeros : list Z :=
  [1632; 1776; 1984; 2406; 2534; 2662; 2790; 2918; 3046; 3174; 3302; 3430;
   3558; 3664; 3792; 3872; 4160; 4240; 6112; 6160; 6470; 6608; 6784; 6800;
   6992; 7088; 7232; 7248; 42528; 43216; 43264; 43472; 43504; 43600;
   44016; 65296; 66720; 68912; 69734; 69872; 69942; 70096; 70384; 70736;
   70864; 71248; 71360; 71472; 71904; 72016; 72784; 73040; 73120; 92768;
   92864; 93008; 120782; 120792; 120802; 120812; 120822; 123200; 123632;
   125264; 130032].

Definition unicode_decimal (cp : Z) : option Z :=
  match find (fun z => (z <=? cp) && (cp <? z + 10)) decimal_zeros with
  | Some z => Some (cp - z)
  | None => None
  end.

(** The ASCII character [float()] parses in place of a code point. *)
Definition to_ascii (cp : Z) : option ascii :=
  if cp <? 127 then Some (ascii_of_nat (Z.to_nat cp))
  else if unicode_space cp then Some " "%char
  else
    match unicode_decimal cp with
    | Some d => Some (ascii_of_nat (Z.to_nat (48 + d)))
    | None => None
    end.

Fixpoint transform (cps : list Z) : option (list ascii) :=
  match cps with
  | [] => Some []
  | cp :: cps' =>
      match to_ascii cp, transform cps' with
      | Some c, Some l => Some (c :: l)
      | _, _ => None
      end
  end.

Definition of_str (s : string) : option float :=
  match utf8_decode (list_ascii_of_string s) with
  | Some cps =>
      match transform cps with
      | Some chars => of_chars chars
      | None => None
      end
  | None => None
  end.

End PyFloat.

(** ** Python operations on parsed values *)

(** [json] is a nested inductive type: the case analysis below is all the
    development needs of it. *)

(** [f == z] between a float and an int compares the two numbers exactly. *)
Definition float_eq_int (f : float) (z : Z) : bool :=
  match Prim2SF f with
  | S754_zero _ => z =? 0
  | S754_finite s m e =>
      let v := if s then Z.neg m else Z.pos m in
      if 0 <=? e then z =? v * 2 ^ e else z * 2 ^ (- e) =? v
  | S754_infinity _ | S754_nan => false
  end.

(** [v == z] for an int [z]; [bool] is a subclass of [int]. *)
Definition py_eq_int (v : json) (z : Z) : bool :=
  match v with
  | JInt x => x =? z
  | JBool b => (if b then 1 else 0) =? z
  | JFloat f => float_eq_int f z
  | JNull | JStr _ | JList _ | JDict _ => false
  end.

(** [v == s] for a str [s]: equal strings only, letter case included. *)
Definition py_eq_str (v : json) (s : string) : bool :=
  match v with
  | JStr x => String.eqb x s
  | _ => false
  end.

(** [v[k]] for a str key [k]. *)
Definition subscript (v : json) (k : string) : result json :=
  match v with
  | JDict d =>
      match dict_lookup k d with
      | Some x => Ok x
      | None => Raise (KeyError k)
      end
  | _ => Raise TypeError
  end.

(** [v.get(k)]: the dict method, [None] for a missing key. *)
Definition py_get (v : json) (k : string) : result json :=
  match v with
  | JDict d =>
      match dict_lookup k d with
      | Some x => Ok x
      | None => Ok JNull
      end
  | _ => Raise AttributeError
  end.

(** Truth value of [v], as [if v:] tests it. *)
Definition truthy (v : json) : bool :=
  match v with
  | JNull => false
  | JBool b => b
  | JInt z => negb (z =? 0)
  | JFloat f => negb (PrimFloat.eqb f 0)
  | JStr s => negb (String.eqb s "")
  | JList l => match l with [] => false | _ => true end
  | JDict d => match d with [] => false | _ => true end
  end.

(** The characters of a str: each is the bytes from one leading byte up
    to the next. *)
Fixpoint characters (l : list ascii) : list (list ascii) :=
  match l with
  | [] => []
  | c :: l' =>
      match characters l' with
      | (c' :: g) :: gs =>
          match PyFloat.continuation c' with
          | Some _ => (c :: c' :: g) :: gs
          | None => [c] :: (c' :: g) :: gs
          end
      | other => [c] :: other
      end
  end.

(** The items [for x in v] goes through: the elements of a list, the keys
    of a dict, the characters of a str. *)
Definition py_iter (v : json) : result (list json) :=
  match v with
  | JList l => Ok l
  | JDict d => Ok (map (fun kv => JStr (fst kv)) d)
  | JStr s =>
      Ok (map (fun g => JStr (string_of_list_ascii g))
            (characters (list_ascii_of_string s)))
  | JNull | JBool _ | JInt _ | JFloat _ => Raise TypeError
  end.

(** [float(v)]. *)
Definition py_float (v : json) : result float :=
  match v with
  | JFloat f => Ok f
  | JInt z => PyFloat.of_int z
  | JBool b => Ok (if b then 1%float else 0%float)
  | JStr s =>
      match PyFloat.of_str s with
      | Some f => Ok f
      | None => Raise ValueError
      end
  | JNull | JList _ | JDict _ => Raise TypeError
  end.

(** [v + c] for a float [c]: an int or bool operand is converted first,
    any other type has no addition with a float. *)
Definition py_add_float (v : json) (c : float) : result json :=
  match v with
  | JFloat f => Ok (JFloat (f + c)%float)
  | JInt z =>
      match PyFloat.of_int z with
      | Ok f => Ok (JFloat (f + c)%float)
      | Raise e => Raise e
      end
  | JBool b => Ok (JFloat ((if b then 1 else 0) + c)%float)
  | JNull | JStr _ | JList _ | JDict _ => Raise TypeError
  end.

(** ** The HTTP layer

    [requests] is outside the module: the network is a parameter that
    answers a GET on a URL with an exception or a response, and a response
    says what [raise_for_status()] and [json()] do on it. *)

Record Response : Type := mkResponse {
  status_error : option exn;   (* [Some e]: raise_for_status() raises [e] *)
  json_result : result json    (* what json() returns or raises *)
}.

Definition network : Type := string -> result Response.

Inductive event : Type :=
| EvGet (url : string)      (* requests.get(url) *)
| EvRaiseForStatus          (* response.raise_for_status() *)
| EvJson.                   (* response.json() *)

Definition event_eqb (a b : event) : bool :=
  match a, b with
  | EvGet u, EvGet v => String.eqb u v
  | EvRaiseForStatus, EvRaiseForStatus => true
  | EvJson, EvJson => true
  | _, _ => false
  end.

(** ** Objects and classes *)

Inductive provider_class : Type :=
| MonoProvider
| PrivatbankProvider
| NationalBankProvider
| VKurseProvider.

(** The attributes set in the class bodies. *)
Record class_attrs : Type := mkClasses {
  mono_name : string;
  iso_from_country_code : list (string * Z);
  privatbank_name : string;
  nationalbank_name : string;
  vkurse_name : string;
  country_code : list (string * string)
}.

(** The attributes [__init__] sets on the instance. *)
Record instance : Type := mkInstance {
  cls : provider_class;
  currency_from : string;
  currency_to : string
}.

Record store : Type := mkStore {
  self : instance;
  classes : class_attrs
}.

(** The class attributes as the module's text defines them. *)
Definition module_classes : class_attrs :=
  {| mono_name := "monobank";
     iso_from_country_code := [("UAH", 980); ("USD", 840); ("EUR", 978)];
     privatbank_name := "privatbank";
     nationalbank_name := "NationalBank";
     vkurse_name := "VKurse";
     country_code := [("USD", "Dollar"); ("EUR", "Euro")] |}.

(** [ProviderBase.__init__], called as [C(currency_from, currency_to)]. *)
Definition init (C : provider_class) (currency_from currency_to : string) : store :=
  {| self := {| cls := C; currency_from := currency_from; currency_to := currency_to |};
     classes := module_classes |}.

Definition PROVIDERS : list provider_class :=
  [MonoProvider; PrivatbankProvider; NationalBankProvider; VKurseProvider].

(** [self.name]: the attribute of the instance's class. *)
Definition name (st : store) : string :=
  match cls (self st) with
  | MonoProvider => mono_name (classes st)
  | PrivatbankProvider => privatbank_name (classes st)
  | NationalBankProvider => nationalbank_name (classes st)
  | VKurseProvider => vkurse_name (classes st)
  end.

(** ** The monad of method bodies: store, log of HTTP calls, exceptions *)

Record world : Type := mkWorld {
  heap : store;
  log : list event
}.

Definition M (A : Type) : Type := world -> world * result A.

Definition ret {A} (a : A) : M A := fun w => (w, Ok a).

Definition raise {A} (e : exn) : M A := fun w => (w, Raise e).

Definition bind {A B} (m : M A) (k : A -> M B) : M B :=
  fun w =>
    match m w with
    | (w', Ok a) => k a w'
    | (w', Raise e) => (w', Raise e)
    end.

Notation "x <- m ;; k" := (bind m (fun x => k))
  (at level 61, m at next level, right associativity).
Notation "m ;;; k" := (bind m (fun _ => k))
  (at level 61, right associativity).

(** An attribute read, [self.a] or a class attribute. *)
Definition read {A} (a : store -> A) : M A := fun w => (w, Ok (a (heap w))).

(** A call on the HTTP layer is recorded. *)
Definition emit (e : event) : M unit :=
  fun w => ({| heap := heap w; log := log w ++ [e] |}, Ok tt).

(** A pure operation that may raise. *)
Definition lift {A} (r : result A) : M A := fun w => (w, r).

Definition requests_get (net : network) (url : string) : M Response :=
  emit (EvGet url) ;;; lift (net url).

Definition raise_for_status (response : Response) : M unit :=
  emit EvRaiseForStatus ;;;
  match status_error response with
  | Some e => raise e
  | None => ret tt
  end.

Definition response_json (response : Response) : M json :=
  emit EvJson ;;; lift (json_result response).

(** [d[k]] on a class-level dict with str keys. *)
Definition dict_subscript {V} (d : list (string * V)) (k : string) : M V :=
  match dict_lookup k d with
  | Some v => ret v
  | None => raise (KeyError k)
  end.

(** [for x in l: body], where the body either returns from the method
    ([Some]) or falls through to the next item ([None]). *)
Fixpoint for_each {A} (body : json -> M (option A)) (l : list json) : M (option A) :=
  match l with
  | [] => ret None
  | x :: l' =>
      r <- body x ;;
      match r with
      | Some a => ret (Some a)
      | None => for_each body l'
      end
  end.

(** The f-string of the three [raise RateNotFound(...)] statements. *)
Definition not_found_message (from to provider : string) : string :=
  "Cannot find rate from " ++ from ++ " to " ++ to ++ " in provider " ++ provider.

Definition raise_not_found {A} : M A :=
  from <- read (fun st => currency_from (self st)) ;;
  to <- read (fun st => currency_to (self st)) ;;
  n <- read name ;;
  raise (RateNotFound (not_found_message from to n)).

(** ** The four [get_rate] methods *)

Definition mono_url : string := "https://api.monobank.ua/bank/currency".
Definition privatbank_url : string :=
  "https://api.privatbank.ua/p24api/pubinfo?exchange&coursid=5".
Definition nationalbank_url : string :=
  "https://bank.gov.ua/NBUStatService/v1/statdirectory/exchange?json".
Definition vkurse_url : string := "https://vkurse.dp.ua/course.json".

(** The constructor calls [SellBuy(...)] of the four methods; keyword
    arguments are evaluated from left to right. *)
Definition mono_value (currency : json) : result SellBuy :=
  rate_sell <~ subscript currency "rateSell" ;;
  s <~ py_float rate_sell ;;
  rate_buy <~ subscript currency "rateBuy" ;;
  b <~ py_float rate_buy ;;
  Ok {| sell := s; buy := b |}.

Definition privatbank_value (currency : json) : result SellBuy :=
  x <~ subscript currency "buy" ;;
  b <~ py_float x ;;
  y <~ subscript currency "sale" ;;
  s <~ py_float y ;;
  Ok {| sell := s; buy := b |}.

Definition nationalbank_value (currency : json) : result SellBuy :=
  x <~ subscript currency "rate" ;;
  b <~ py_float x ;;
  y <~ subscript currency "rate" ;;
  y' <~ py_add_float y 0.5 ;;
  s <~ py_float y' ;;
  Ok {| sell := s; buy := b |}.

Definition vkurse_value (currency_data : json) : result SellBuy :=
  x <~ subscript currency_data "sale" ;;
  s <~ py_float x ;;
  y <~ subscript currency_data "buy" ;;
  b <~ py_float y ;;
  Ok {| sell := s; buy := b |}.

(** The body of the loop of [MonoProvider.get_rate]. *)
Definition mono_body (currency_from_code currency_to_code : Z) (currency : json)
  : M (option SellBuy) :=
  a <- lift (subscript currency "currencyCodeA") ;;
  if py_eq_int a currency_from_code then
    b <- lift (subscript currency "currencyCodeB") ;;
    if py_eq_int b currency_to_code then
      value <- lift (mono_value currency) ;;
      ret (Some value)
    else ret None
  else ret None.

Definition MonoProvider_get_rate (net : network) : M SellBuy :=
  response <- requests_get net mono_url ;;
  raise_for_status response ;;;
  table <- read (fun st => iso_from_country_code (classes st)) ;;
  from <- read (fun st => currency_from (self st)) ;;
  currency_from_code <- dict_subscript table from ;;
  table <- read (fun st => iso_from_country_code (classes st)) ;;
  to <- read (fun st => currency_to (self st)) ;;
  currency_to_code <- dict_subscript table to ;;
  data <- response_json response ;;
  items <- lift (py_iter data) ;;
  r <- for_each (mono_body currency_from_code currency_to_code) items ;;
  match r with
  | Some value => ret value
  | None => raise_not_found
  end.

(** The body of the loop of [PrivatbankProvider.get_rate]. *)
Definition privatbank_body (currency : json) : M (option SellBuy) :=
  ccy <- lift (subscript currency "ccy") ;;
  from <- read (fun st => currency_from (self st)) ;;
  if py_eq_str ccy from then
    base_ccy <- lift (subscript currency "base_ccy") ;;
    to <- read (fun st => currency_to (self st)) ;;
    if py_eq_str base_ccy to then
      value <- lift (privatbank_value currency) ;;
      ret (Some value)
    else ret None
  else ret None.

Definition PrivatbankProvider_get_rate (net : network) : M SellBuy :=
  response <- requests_get net privatbank_url ;;
  raise_for_status response ;;;
  data <- response_json response ;;
  items <- lift (py_iter data) ;;
  r <- for_each privatbank_body items ;;
  match r with
  | Some value => ret value
  | None => raise_not_found
  end.

(** The body of the loop of [NationalBankProvider.get_rate]. *)
Definition nationalbank_body (currency : json) : M (option SellBuy) :=
  cc <- lift (subscript currency "cc") ;;
  from <- read (fun st => currency_from (self st)) ;;
  if py_eq_str cc from then
    value <- lift (nationalbank_value currency) ;;
    ret (Some value)
  else ret None.

Definition NationalBankProvider_get_rate (net : network) : M SellBuy :=
  response <- requests_get net nationalbank_url ;;
  raise_for_status response ;;;
  data <- response_json response ;;
  items <- lift (py_iter data) ;;
  r <- for_each nationalbank_body items ;;
  match r with
  | Some value => ret value
  | None => raise_not_found
  end.

Definition VKurseProvider_get_rate (net : network) : M SellBuy :=
  response <- requests_get net vkurse_url ;;
  raise_for_status response ;;;
  table <- read (fun st => country_code (classes st)) ;;
  from <- read (fun st => currency_from (self st)) ;;
  currency_from_code <- dict_subscript table from ;;
  data <- response_json response ;;
  currency_data <- lift (py_get data currency_from_code) ;;
  if truthy currency_data then
    value <- lift (vkurse_value currency_data) ;;
    ret value
  else raise_not_found.

(** [self.get_rate()]: the method of the instance's class. *)
Definition get_rate (net : network) : M SellBuy :=
  fun w =>
    match cls (self (heap w)) with
    | MonoProvider => MonoProvider_get_rate net w
    | PrivatbankProvider => PrivatbankProvider_get_rate net w
    | NationalBankProvider => NationalBankProvider_get_rate net w
    | VKurseProvider => VKurseProvider_get_rate net w
    end.

(** ** Running a call *)

(** The URL each class fetches. *)
Definition url_of (C : provider_class) : string :=
  match C with
  | MonoProvider => mono_url
  | PrivatbankProvider => privatbank_url
  | NationalBankProvider => nationalbank_url
  | VKurseProvider => vkurse_url
  end.

(** The world a call on a freshly built provider starts from. *)
Definition start (C : provider_class) (from to : string) : world :=
  {| heap := init C from to; log := [] |}.

(** [C(from, to).get_rate()] on a network, from an empty log. *)
Definition call (C : provider_class) (from to : string) (net : network)
  : world * result SellBuy :=
  get_rate net (start C from to).

Definition rate (C : provider_class) (from to : string) (net : network)
  : result SellBuy :=
  snd (call C from to net).

(** A network on which every GET succeeds and parses to [body]. *)
Definition serving (body : json) : network :=
  fun _ => Ok {| status_error := None; json_result := Ok body |}.

(** A network on which every GET is answered with a status for which
    [raise_for_status()] raises [e]. *)
Definition refusing (e : exn) (body : result json) : network :=
  fun _ => Ok {| status_error := Some e; json_result := body |}.

(** The GET of class [C] succeeds on [net] and the body parses to [body]. *)
Definition delivers (net : network) (C : provider_class) (body : json) : Prop :=
  exists response,
    net (url_of C) = Ok response /\
    status_error response = None /\
    json_result response = Ok body.


(** ** The matching rules, in the words of the specification

    A record is a JSON object; [field k r] is its member [k], if any.  The
    predicates below say which records a provider is specified to select.
    They are stated on the data alone, apart from the methods. *)

Definition field (k : string) (r : json) : option json :=
  match r with
  | JDict d => dict_lookup k d
  | _ => None
  end.

Definition has_field (k : string) (r : json) : bool :=
  match field k r with
  | Some _ => true
  | None => false
  end.

(** Mono: [currencyCodeA] equals numeric(from) and [currencyCodeB] equals
    numeric(to). *)
Definition mono_matches (a b : Z) (r : json) : bool :=
  match field "currencyCodeA" r, field "currencyCodeB" r with
  | Some x, Some y => py_eq_int x a && py_eq_int y b
  | _, _ => false
  end.

(** Privatbank: [ccy] equals from and [base_ccy] equals to. *)
Definition privatbank_matches (from to : string) (r : json) : bool :=
  match field "ccy" r, field "base_ccy" r with
  | Some x, Some y => py_eq_str x from && py_eq_str y to
  | _, _ => false
  end.

(** National bank: [cc] equals from. *)
Definition nationalbank_matches (from : string) (r : json) : bool :=
  match field "cc" r with
  | Some x => py_eq_str x from
  | None => false
  end.

(** The translation tables of the module. *)
Definition numeric (code : string) : option Z :=
  dict_lookup code (iso_from_country_code module_classes).

Definition english_name (code : string) : option string :=
  dict_lookup code (country_code module_classes).

(** The requested codes are in the table the class translates them with:
    Mono translates both codes, VKurse translates [from], the two other
    classes have no table. *)
Definition translated (C : provider_class) (from to : string) : bool :=
  match C with
  | MonoProvider =>
      match numeric from, numeric to with
      | Some _, Some _ => true
      | _, _ => false
      end
  | VKurseProvider =>
      match english_name from with
      | Some _ => true
      | None => false
      end
  | PrivatbankProvider | NationalBankProvider => true
  end.

(** The matching rule of an array-scanning class on one record. *)
Definition matches (C : provider_class) (from to : string) (r : json) : bool :=
  match C with
  | MonoProvider =>
      match numeric from, numeric to with
      | Some a, Some b => mono_matches a b r
      | _, _ => false
      end
  | PrivatbankProvider => privatbank_matches from to r
  | NationalBankProvider => nationalbank_matches from r
  | VKurseProvider => false
  end.

(** The record is an object that carries the fields the matching rule of
    the class names. *)
Definition record_shape (C : provider_class) (r : json) : bool :=
  match C with
  | MonoProvider => has_field "currencyCodeA" r && has_field "currencyCodeB" r
  | PrivatbankProvider => has_field "ccy" r && has_field "base_ccy" r
  | NationalBankProvider => has_field "cc" r
  | VKurseProvider => false
  end.



(** The conversion of a selected record by each class. *)
Definition value_of (C : provider_class) (r : json) : result SellBuy :=
  match C with
  | MonoProvider => mono_value r
  | PrivatbankProvider => privatbank_value r
  | NationalBankProvider => nationalbank_value r
  | VKurseProvider => vkurse_value r
  end.

Definition array_scanning (C : provider_class) : bool :=
  match C with
  | VKurseProvider => false
  | _ => true
  end.

(** A parsed response of the shape the class expects in which no record
    matches: for the array-scanning classes an array of well-shaped
    records none of which matches, for VKurse an object without the key
    [from] translates to. *)
Definition no_match (C : provider_class) (from to : string) (body : json) : bool :=
  match C with
  | VKurseProvider =>
      match english_name from, body with
      | Some key, JDict d =>
          match dict_lookup key d with
          | None => true
          | Some _ => false
          end
      | _, _ => false
      end
  | _ =>
      match body with
      | JList rs =>
          forallb (fun r => record_shape C r && negb (matches C from to r)) rs
      | _ => false
      end
  end.

(** [self.name] of a [C] instance built by the module. *)
Definition class_name (C : provider_class) : string :=
  name (init C "" "").

(** The world after the three calls on the HTTP layer. *)
Definition fetched (C : provider_class) (w : world) : world :=
  {| heap := heap w; log := log w ++ [EvGet (url_of C); EvRaiseForStatus; EvJson] |}.

(** The world after the GET and the status check only. *)
Definition checked (C : provider_class) (w : world) : world :=
  {| heap := heap w; log := log w ++ [EvGet (url_of C); EvRaiseForStatus] |}.

(** ** Sample records, as in the specification's examples *)

Definition mono_usd_uah : json :=
  JDict [("currencyCodeA", JInt 840); ("currencyCodeB", JInt 980);
         ("rateSell", JStr "27.5"); ("rateBuy", JStr "27.0")].

Definition nbu_usd : json :=
  JDict [("cc", JStr "USD"); ("rate", JFloat 27.0)].

Definition nbu_usd_as_string : json :=
  JDict [("cc", JStr "USD"); ("rate", JStr "27.0")].

Definition privat_usd_uah : json :=
  JDict [("ccy", JStr "USD"); ("base_ccy", JStr "UAH");
         ("buy", JStr "27.0"); ("sale", JStr "27.5")].

Definition privat_lowercase : json :=
  JDict [("ccy", JStr "usd"); ("base_ccy", JStr "UAH");
         ("buy", JStr "26.0"); ("sale", JStr "26.5")].

(** ** Auxiliary definitions for the proofs *)

(** A selected record is converted and returned from the loop. *)
Definition on_match {A} (r : result A) : result (option A) :=
  v <~ r ;; Ok (Some v).

(** What the end of a scanning method makes of the outcome of its loop. *)
Definition finish (x : world * result (option SellBuy)) : world * result SellBuy :=
  match x with
  | (w, Ok (Some value)) => (w, Ok value)
  | (w, Ok None) => raise_not_found w
  | (w, Raise e) => (w, Raise e)
  end.

Definition scan (body : json -> M (option SellBuy)) (data : json) (w : world)
  : world * result SellBuy :=
  match py_iter data with
  | Ok items => finish (for_each body items w)
  | Raise e => (w, Raise e)
  end.

(** The three lines every method starts with, followed by [k]. *)
Definition prologue {A} (net : network) (url : string) (k : Response -> M A) : M A :=
  response <- requests_get net url ;;
  raise_for_status response ;;;
  k response.

(** The code whose translation fails first: [from], or [to] when [from]
    is in the table (Mono translates [from] before [to]). *)
Definition untranslated (C : provider_class) (from to : string) : string :=
  match C with
  | MonoProvider =>
      match numeric from with
      | None => from
      | Some _ => to
      end
  | _ => from
  end.

(** The loop of the national bank method as a function of the requested
    [from] and the items alone. *)
Definition nationalbank_step (from : string) (currency : json) : result (option SellBuy) :=
  cc <~ subscript currency "cc" ;;
  if py_eq_str cc from then on_match (nationalbank_value currency) else Ok None.

Fixpoint first_hit {A} (step : json -> result (option A)) (l : list json)
  : result (option A) :=
  match l with
  | [] => Ok None
  | x :: l' =>
      match step x with
      | Ok None => first_hit step l'
      | other => other
      end
  end.


(** The loops of the two other scanning methods as functions of the
    requested codes and the items alone. *)
Definition mono_step (a b : Z) (currency : json) : result (option SellBuy) :=
  x <~ subscript currency "currencyCodeA" ;;
  if py_eq_int x a then
    y <~ subscript currency "currencyCodeB" ;;
    if py_eq_int y b then on_match (mono_value currency) else Ok None
  else Ok None.

Definition privatbank_step (from to : string) (currency : json)
  : result (option SellBuy) :=
  ccy <~ subscript currency "ccy" ;;
  if py_eq_str ccy from then
    base_ccy <~ subscript currency "base_ccy" ;;
    if py_eq_str base_ccy to then on_match (privatbank_value currency) else Ok None
  else Ok None.

Definition step_of (C : provider_class) (from to : string)
  : json -> result (option SellBuy) :=
  match C with
  | MonoProvider =>
      match numeric from, numeric to with
      | Some a, Some b => mono_step a b
      | _, _ => fun _ => Ok None
      end
  | PrivatbankProvider => privatbank_step from to
  | NationalBankProvider => nationalbank_step from
  | VKurseProvider => fun _ => Ok None
  end.

(** The outcome of a scanning method on a parsed body. *)
Definition scan_outcome (C : provider_class) (from to : string) (body : json)
  : result SellBuy :=
  items <~ py_iter body ;;
  match first_hit (step_of C from to) items with
  | Ok (Some value) => Ok value
  | Ok None => Raise (RateNotFound (not_found_message from to (class_name C)))
  | Raise e => Raise e
  end.

(** The field the condition of each loop reads first, and the field the
    constructor call reads first. *)
Definition key_field (C : provider_class) : string :=
  match C with
  | MonoProvider => "currencyCodeA"
  | PrivatbankProvider => "ccy"
  | NationalBankProvider => "cc"
  | VKurseProvider => ""
  end.

Definition first_rate_field (C : provider_class) : string :=
  match C with
  | MonoProvider => "rateSell"
  | PrivatbankProvider => "buy"
  | NationalBankProvider => "rate"
  | VKurseProvider => "sale"
  end.

(** A network on which every GET raises [e]. *)
Definition unreachable (e : exn) : network := fun _ => Raise e.

(** A network on which every GET succeeds and [json()] raises [e]. *)
Definition garbled (e : exn) : network :=
  fun _ => Ok {| status_error := None; json_result := Raise e |}.

(** A computation that leaves the whole world, log included, as it is. *)
Definition quiet {A} (m : M A) : Prop :=
  forall w, fst (m w) = w.

(** A computation that calls [json()] at most once and nothing else on
    the HTTP layer. *)
Definition parses_at_most_once {A} (m : M A) : Prop :=
  forall w,
    fst (m w) = w \/ fst (m w) = {| heap := heap w; log := log w ++ [EvJson] |}.

(** A computation whose result and calls on the HTTP layer depend on the
    store alone, not on the log, and which only appends to the log. *)
Definition log_blind {A} (m : M A) : Prop :=
  forall w w',
    heap w = heap w' ->
    snd (m w) = snd (m w') /\
    heap (fst (m w)) = heap w /\
    heap (fst (m w')) = heap w' /\
    exists t : list event,
      log (fst (m w)) = (log w ++ t)%list /\ log (fst (m w')) = (log w' ++ t)%list.

(** The number of GETs in a log. *)
Definition count_gets (l : list event) : nat :=
  List.length (filter (fun e => match e with EvGet _ => true | _ => false end) l).

(** A computation that leaves the store as it found it. *)
Definition frame {A} (m : M A) : Prop :=
  forall w, heap (fst (m w)) = heap w.

(** * Properties *)

(** ** The loop *)

Section Loop.

Context {A : Type} (body : json -> M (option A)).

Lemma for_each_skip (w : world) (pre l : list json) :
  Forall (fun x => body x w = (w, Ok None)) pre ->
  for_each body (pre ++ l) w = for_each body l w.
Proof.
  induction 1 as [|x pre Hx _ IH]; [reflexivity|].
  cbn [app for_each]. unfold bind at 1. now rewrite Hx.
Qed.

Lemma for_each_all_skip (w : world) (l : list json) :
  Forall (fun x => body x w = (w, Ok None)) l ->
  for_each body l w = (w, Ok None).
Proof.
  intros H. rewrite <- (app_nil_r l). now rewrite for_each_skip.
Qed.

Lemma for_each_return (w w' : world) (x : json) (l : list json) (a : A) :
  body x w = (w', Ok (Some a)) ->
  for_each body (x :: l) w = (w', Ok (Some a)).
Proof.
  intros H. cbn [for_each]. unfold bind. now rewrite H.
Qed.

Lemma for_each_raise (w w' : world) (x : json) (l : list json) (e : exn) :
  body x w = (w', Raise e) ->
  for_each body (x :: l) w = (w', Raise e).
Proof.
  intros H. cbn [for_each]. unfold bind. now rewrite H.
Qed.

End Loop.

(** ** One record *)

Lemma field_subscript (k : string) (r x : json) :
  field k r = Some x -> subscript r k = Ok x.
Proof.
  destruct r; cbn; try discriminate. now intros ->.
Qed.

Lemma has_field_inv (k : string) (r : json) :
  has_field k r = true -> exists x, field k r = Some x.
Proof.
  unfold has_field. destruct (field k r) as [x|]; [eauto | discriminate].
Qed.

Ltac run_body :=
  unfold bind, lift, read, ret, on_match, rbind; cbn [heap self].

Lemma mono_body_skip (a b : Z) (r : json) (w : world) :
  record_shape MonoProvider r = true ->
  mono_matches a b r = false ->
  mono_body a b r w = (w, Ok None).
Proof.
  cbn [record_shape]. intros [Ha Hb]%andb_prop.
  apply has_field_inv in Ha as [x Hx]. apply has_field_inv in Hb as [y Hy].
  unfold mono_matches, mono_body. rewrite Hx, Hy.
  rewrite (field_subscript _ _ _ Hx), (field_subscript _ _ _ Hy). run_body.
  destruct (py_eq_int x a); [|reflexivity].
  cbn [andb]. now intros ->.
Qed.

Lemma mono_body_hit (a b : Z) (r : json) (w : world) :
  mono_matches a b r = true ->
  mono_body a b r w = (w, on_match (mono_value r)).
Proof.
  unfold mono_matches, mono_body.
  destruct (field "currencyCodeA" r) as [x|] eqn:Hx; [|discriminate].
  destruct (field "currencyCodeB" r) as [y|] eqn:Hy; [|discriminate].
  intros [Ha Hb]%andb_prop.
  rewrite (field_subscript _ _ _ Hx), (field_subscript _ _ _ Hy). run_body.
  rewrite Ha, Hb. now destruct (mono_value r).
Qed.

Lemma privatbank_body_skip (r : json) (w : world) :
  record_shape PrivatbankProvider r = true ->
  privatbank_matches (currency_from (self (heap w))) (currency_to (self (heap w))) r = false ->
  privatbank_body r w = (w, Ok None).
Proof.
  cbn [record_shape]. intros [Ha Hb]%andb_prop.
  apply has_field_inv in Ha as [x Hx]. apply has_field_inv in Hb as [y Hy].
  unfold privatbank_matches, privatbank_body. rewrite Hx, Hy.
  rewrite (field_subscript _ _ _ Hx), (field_subscript _ _ _ Hy). run_body.
  destruct (py_eq_str x _); [|reflexivity].
  cbn [andb]. now intros ->.
Qed.

Lemma privatbank_body_hit (r : json) (w : world) :
  privatbank_matches (currency_from (self (heap w))) (currency_to (self (heap w))) r = true ->
  privatbank_body r w = (w, on_match (privatbank_value r)).
Proof.
  unfold privatbank_matches, privatbank_body.
  destruct (field "ccy" r) as [x|] eqn:Hx; [|discriminate].
  destruct (field "base_ccy" r) as [y|] eqn:Hy; [|discriminate].
  intros [Ha Hb]%andb_prop.
  rewrite (field_subscript _ _ _ Hx), (field_subscript _ _ _ Hy). run_body.
  rewrite Ha, Hb. now destruct (privatbank_value r).
Qed.

Lemma nationalbank_body_skip (r : json) (w : world) :
  record_shape NationalBankProvider r = true ->
  nationalbank_matches (currency_from (self (heap w))) r = false ->
  nationalbank_body r w = (w, Ok None).
Proof.
  cbn [record_shape]. intros [x Hx]%has_field_inv.
  unfold nationalbank_matches, nationalbank_body. rewrite Hx.
  rewrite (field_subscript _ _ _ Hx). run_body. now intros ->.
Qed.

Lemma nationalbank_body_hit (r : json) (w : world) :
  nationalbank_matches (currency_from (self (heap w))) r = true ->
  nationalbank_body r w = (w, on_match (nationalbank_value r)).
Proof.
  unfold nationalbank_matches, nationalbank_body.
  destruct (field "cc" r) as [x|] eqn:Hx; [|discriminate].
  rewrite (field_subscript _ _ _ Hx). run_body.
  intros ->. now destruct (nationalbank_value r).
Qed.

(** ** The HTTP prologue *)
Ltac run_method :=
  unfold requests_get, raise_for_status, response_json, dict_subscript,
    bind, emit, lift, read, ret, raise;
  cbn [heap log self classes fst snd].

Ltac rew H := rewrite H; cbv beta iota; cbn [heap log self classes].

Ltac log_assoc := rewrite <- ?app_assoc; cbn [app].

Section Prologue.

Variables (net : network) (w : world).

Lemma prologue_failed {A} (url : string) (k : Response -> M A) (e : exn) :
  net url = Raise e ->
  prologue net url k w = ({| heap := heap w; log := log w ++ [EvGet url] |}, Raise e).
Proof.
  intros Hn. unfold prologue. run_method. now rewrite Hn.
Qed.

Lemma prologue_refused {A} (url : string) (k : Response -> M A)
    (response : Response) (e : exn) :
  net url = Ok response -> status_error response = Some e ->
  prologue net url k w =
    ({| heap := heap w; log := log w ++ [EvGet url; EvRaiseForStatus] |}, Raise e).
Proof.
  intros Hn Hs. unfold prologue. run_method. rewrite Hn, Hs. now log_assoc.
Qed.

Lemma prologue_passed {A} (url : string) (k : Response -> M A)
    (response : Response) :
  net url = Ok response -> status_error response = None ->
  prologue net url k w =
    k response {| heap := heap w; log := log w ++ [EvGet url; EvRaiseForStatus] |}.
Proof.
  intros Hn Hs. unfold prologue. run_method. rewrite Hn, Hs. now log_assoc.
Qed.

(** Every method is its prologue followed by the rest. *)
Lemma get_rate_prologue :
  exists k, get_rate net w = prologue net (url_of (cls (self (heap w)))) k w.
Proof.
  unfold get_rate. destruct (cls (self (heap w))); eexists; reflexivity.
Qed.

(** *** Mono *)

Lemma Mono_run (body : json) (a b : Z) :
  delivers net MonoProvider body ->
  dict_lookup (currency_from (self (heap w))) (iso_from_country_code (classes (heap w))) = Some a ->
  dict_lookup (currency_to (self (heap w))) (iso_from_country_code (classes (heap w))) = Some b ->
  MonoProvider_get_rate net w = scan (mono_body a b) body (fetched MonoProvider w).
Proof.
  intros (response & Hn & Hs & Hj) Ha Hb. cbn [url_of] in Hn.
  unfold MonoProvider_get_rate. run_method. rew Hn. rew Hs.
  rew Ha. rew Hb. rew Hj. unfold scan, fetched. log_assoc. cbn [url_of].
  destruct (py_iter body) as [items|e]; [|reflexivity].
  unfold finish.
  destruct (for_each _ items _) as [w' [[v|]|e]]; reflexivity.
Qed.

Lemma Mono_unmapped_from (response : Response) :
  net mono_url = Ok response -> status_error response = None ->
  dict_lookup (currency_from (self (heap w))) (iso_from_country_code (classes (heap w))) = None ->
  MonoProvider_get_rate net w =
    (checked MonoProvider w, Raise (KeyError (currency_from (self (heap w))))).
Proof.
  intros Hn Hs Ha. unfold MonoProvider_get_rate. run_method.
  rew Hn. rew Hs. rew Ha. unfold checked. now log_assoc.
Qed.

Lemma Mono_unmapped_to (response : Response) (a : Z) :
  net mono_url = Ok response -> status_error response = None ->
  dict_lookup (currency_from (self (heap w))) (iso_from_country_code (classes (heap w))) = Some a ->
  dict_lookup (currency_to (self (heap w))) (iso_from_country_code (classes (heap w))) = None ->
  MonoProvider_get_rate net w =
    (checked MonoProvider w, Raise (KeyError (currency_to (self (heap w))))).
Proof.
  intros Hn Hs Ha Hb. unfold MonoProvider_get_rate. run_method.
  rew Hn. rew Hs. rew Ha. rew Hb. unfold checked. now log_assoc.
Qed.

(** *** Privatbank and the national bank *)

Lemma Privatbank_run (body : json) :
  delivers net PrivatbankProvider body ->
  PrivatbankProvider_get_rate net w =
    scan privatbank_body body (fetched PrivatbankProvider w).
Proof.
  intros (response & Hn & Hs & Hj). cbn [url_of] in Hn.
  unfold PrivatbankProvider_get_rate. run_method. rew Hn. rew Hs. rew Hj.
  unfold scan, fetched. log_assoc. cbn [url_of].
  destruct (py_iter body) as [items|e]; [|reflexivity].
  unfold finish.
  destruct (for_each _ items _) as [w' [[v|]|e]]; reflexivity.
Qed.

Lemma NationalBank_run (body : json) :
  delivers net NationalBankProvider body ->
  NationalBankProvider_get_rate net w =
    scan nationalbank_body body (fetched NationalBankProvider w).
Proof.
  intros (response & Hn & Hs & Hj). cbn [url_of] in Hn.
  unfold NationalBankProvider_get_rate. run_method. rew Hn. rew Hs. rew Hj.
  unfold scan, fetched. log_assoc. cbn [url_of].
  destruct (py_iter body) as [items|e]; [|reflexivity].
  unfold finish.
  destruct (for_each _ items _) as [w' [[v|]|e]]; reflexivity.
Qed.

(** *** VKurse *)

Lemma VKurse_run (body : json) (key : string) :
  delivers net VKurseProvider body ->
  dict_lookup (currency_from (self (heap w))) (country_code (classes (heap w))) = Some key ->
  VKurseProvider_get_rate net w =
    match py_get body key with
    | Ok currency_data =>
        if truthy currency_data
        then (fetched VKurseProvider w, vkurse_value currency_data)
        else raise_not_found (fetched VKurseProvider w)
    | Raise e => (fetched VKurseProvider w, Raise e)
    end.
Proof.
  intros (response & Hn & Hs & Hj) Hk. cbn [url_of] in Hn.
  unfold VKurseProvider_get_rate. run_method. rew Hn. rew Hs. rew Hk. rew Hj.
  unfold fetched. log_assoc. cbn [url_of].
  destruct (py_get body key) as [currency_data|e]; [|reflexivity].
  destruct (truthy currency_data); [|reflexivity].
  now destruct (vkurse_value currency_data).
Qed.

Lemma VKurse_unmapped (response : Response) :
  net vkurse_url = Ok response -> status_error response = None ->
  dict_lookup (currency_from (self (heap w))) (country_code (classes (heap w))) = None ->
  VKurseProvider_get_rate net w =
    (checked VKurseProvider w, Raise (KeyError (currency_from (self (heap w))))).
Proof.
  intros Hn Hs Hk. unfold VKurseProvider_get_rate. run_method.
  rew Hn. rew Hs. rew Hk. unfold checked. now log_assoc.
Qed.

End Prologue.

(** ** Scanning an array *)

Lemma scan_first {body : json -> M (option SellBuy)} (w : world)
    (pre post : list json) (r : json) (v : result SellBuy) :
  Forall (fun x => body x w = (w, Ok None)) pre ->
  body r w = (w, on_match v) ->
  scan body (JList (pre ++ r :: post)) w = (w, v).
Proof.
  intros Hpre Hr. unfold scan. cbn [py_iter].
  rewrite (for_each_skip body w pre _ Hpre).
  destruct v as [v|e]; cbn [on_match rbind] in Hr.
  - now rewrite (for_each_return body _ _ _ _ _ Hr).
  - now rewrite (for_each_raise body _ _ _ _ _ Hr).
Qed.

Lemma scan_none {body : json -> M (option SellBuy)} (w : world) (rs : list json) :
  Forall (fun x => body x w = (w, Ok None)) rs ->
  scan body (JList rs) w = raise_not_found w.
Proof.
  intros H. unfold scan. cbn [py_iter].
  now rewrite (for_each_all_skip body w rs H).
Qed.

(** ** A call on a freshly built provider *)

Lemma translated_Mono (from to : string) :
  translated MonoProvider from to = true ->
  exists a b, numeric from = Some a /\ numeric to = Some b.
Proof.
  cbn [translated].
  destruct (numeric from) as [a|]; [|discriminate].
  destruct (numeric to) as [b|]; [|discriminate]. eauto.
Qed.

(** The records before the first match are passed over. *)
Lemma passed_over (C : provider_class) (from to : string) (w : world) (rs : list json) :
  array_scanning C = true ->
  heap w = init C from to ->
  forallb (fun x => record_shape C x && negb (matches C from to x)) rs = true ->
  match C with
  | MonoProvider =>
      forall a b, numeric from = Some a -> numeric to = Some b ->
        Forall (fun x => mono_body a b x w = (w, Ok None)) rs
  | PrivatbankProvider => Forall (fun x => privatbank_body x w = (w, Ok None)) rs
  | NationalBankProvider => Forall (fun x => nationalbank_body x w = (w, Ok None)) rs
  | VKurseProvider => True
  end.
Proof.
  intros HC Hw H. rewrite forallb_forall in H.
  destruct C; [intros a b Ha Hb| | |exact I];
    apply Forall_forall; intros x Hx;
    destruct (andb_prop _ _ (H x Hx)) as [Hs Hm];
    apply negb_true_iff in Hm.
  - apply mono_body_skip; [exact Hs|].
    cbn [matches] in Hm. now rewrite Ha, Hb in Hm.
  - apply privatbank_body_skip; [exact Hs|]. now rewrite Hw.
  - apply nationalbank_body_skip; [exact Hs|]. now rewrite Hw.
Qed.

Lemma call_first_match (C : provider_class) (from to : string) (net : network)
    (pre post : list json) (r : json) :
  array_scanning C = true ->
  translated C from to = true ->
  delivers net C (JList (pre ++ r :: post)) ->
  forallb (fun x => record_shape C x && negb (matches C from to x)) pre = true ->
  matches C from to r = true ->
  call C from to net = (fetched C (start C from to), value_of C r).
Proof.
  intros HC Ht Hd Hpre Hr.
  pose proof (passed_over C from to (fetched C (start C from to)) pre HC eq_refl Hpre) as Hskip.
  unfold call, get_rate. cbn [start heap init self cls].
  destruct C; try discriminate HC; cbn [value_of].
  - destruct (translated_Mono _ _ Ht) as (a & b & Ha & Hb).
    rewrite (Mono_run net (start MonoProvider from to) _ a b Hd Ha Hb).
    apply scan_first; [now apply Hskip|].
    apply mono_body_hit. cbn [matches] in Hr. now rewrite Ha, Hb in Hr.
  - rewrite (Privatbank_run net (start PrivatbankProvider from to) _ Hd).
    apply scan_first; [exact Hskip|]. now apply privatbank_body_hit.
  - rewrite (NationalBank_run net (start NationalBankProvider from to) _ Hd).
    apply scan_first; [exact Hskip|]. now apply nationalbank_body_hit.
Qed.

Lemma call_none_match (C : provider_class) (from to : string) (net : network)
    (rs : list json) :
  array_scanning C = true ->
  translated C from to = true ->
  delivers net C (JList rs) ->
  forallb (fun x => record_shape C x && negb (matches C from to x)) rs = true ->
  call C from to net =
    (fetched C (start C from to),
     Raise (RateNotFound (not_found_message from to (class_name C)))).
Proof.
  intros HC Ht Hd Hrs.
  pose proof (passed_over C from to (fetched C (start C from to)) rs HC eq_refl Hrs) as Hskip.
  unfold call, get_rate. cbn [start heap init self cls].
  destruct C; try discriminate HC.
  - destruct (translated_Mono _ _ Ht) as (a & b & Ha & Hb).
    rewrite (Mono_run net (start MonoProvider from to) _ a b Hd Ha Hb).
    now rewrite (scan_none _ rs (Hskip a b Ha Hb)).
  - rewrite (Privatbank_run net (start PrivatbankProvider from to) _ Hd). now rewrite (scan_none _ rs Hskip).
  - rewrite (NationalBank_run net (start NationalBankProvider from to) _ Hd). now rewrite (scan_none _ rs Hskip).
Qed.

Lemma serving_delivers (C : provider_class) (body : json) :
  delivers (serving body) C body.
Proof. eexists. repeat split. Qed.

(** ** Transport failures (C7) *)

(** C7. For every provider class, when the status of the HTTP response is
    not a success, so that [raise_for_status()] raises [e], [get_rate]
    fails with that same exception [e], and the calls made on the HTTP
    layer are the GET and the status check only: [json()] is never called
    on the response.  This holds from any state of the object and any
    earlier log. *)
Theorem bad_status_propagates_unparsed
    (net : network) (w : world) (response : Response) (e : exn) :
  net (url_of (cls (self (heap w)))) = Ok response ->
  status_error response = Some e ->
  get_rate net w =
    ({| heap := heap w;
        log := log w ++ [EvGet (url_of (cls (self (heap w)))); EvRaiseForStatus] |},
     Raise e)
  /\ existsb (event_eqb EvJson)
       (skipn (List.length (log w)) (log (fst (get_rate net w)))) = false.
Proof.
  intros Hn Hs.
  destruct (get_rate_prologue net w) as [k ->].
  rewrite (prologue_refused net w _ k response e Hn Hs).
  split; [reflexivity|].
  cbn [fst log]. rewrite skipn_app, skipn_all, Nat.sub_diag. reflexivity.
Qed.

Lemma bad_status_propagates_unparsed_witness :
  call PrivatbankProvider "USD" "UAH"
    (refusing (HTTPError 503) (Ok (JList []))) =
    ({| heap := init PrivatbankProvider "USD" "UAH";
        log := [EvGet privatbank_url; EvRaiseForStatus] |},
     Raise (HTTPError 503)).
Proof.
  exact (proj1 (bad_status_propagates_unparsed
                  (refusing (HTTPError 503) (Ok (JList [])))
                  (start PrivatbankProvider "USD" "UAH")
                  {| status_error := Some (HTTPError 503);
                     json_result := Ok (JList []) |}
                  (HTTPError 503) eq_refl eq_refl)).
Defined.

(** ** The configuration is left as it was (C10) *)

Lemma frame_ret {A} (a : A) : frame (ret a).
Proof. now intros w. Qed.

Lemma frame_raise {A} (e : exn) : frame (@raise A e).
Proof. now intros w. Qed.

Lemma frame_lift {A} (r : result A) : frame (lift r).
Proof. now intros w. Qed.

Lemma frame_read {A} (a : store -> A) : frame (read a).
Proof. now intros w. Qed.

Lemma frame_emit (e : event) : frame (emit e).
Proof. now intros w. Qed.

Lemma frame_bind {A B} (m : M A) (k : A -> M B) :
  frame m -> (forall a, frame (k a)) -> frame (bind m k).
Proof.
  intros Hm Hk w. unfold bind. specialize (Hm w).
  destruct (m w) as [w' [a|e]]; cbn [fst] in *.
  - now rewrite Hk.
  - exact Hm.
Qed.

Lemma frame_if {A} (b : bool) (m1 m2 : M A) :
  frame m1 -> frame m2 -> frame (if b then m1 else m2).
Proof. now destruct b. Qed.

Lemma frame_dict_subscript {V} (d : list (string * V)) (k : string) :
  frame (dict_subscript d k).
Proof.
  unfold dict_subscript. destruct (dict_lookup k d); [apply frame_ret | apply frame_raise].
Qed.

Lemma frame_for_each {A} (body : json -> M (option A)) (l : list json) :
  (forall x, frame (body x)) -> frame (for_each body l).
Proof.
  intros Hb. induction l as [|x l IH]; cbn [for_each]; [apply frame_ret|].
  apply frame_bind; [apply Hb|].
  intros [a|]; [apply frame_ret | exact IH].
Qed.

Ltac frame_step :=
  first
    [ apply frame_ret | apply frame_raise | apply frame_lift | apply frame_read
    | apply frame_emit | apply frame_dict_subscript
    | apply frame_for_each; intros ?
    | apply frame_if
    | apply frame_bind; [|intros ?]
    | match goal with |- frame (match ?x with _ => _ end) => destruct x end ].

Ltac frame_auto := repeat frame_step.

Lemma frame_get_rate (net : network) : frame (get_rate net).
Proof.
  intros w. unfold get_rate.
  destruct (cls (self (heap w)));
    [ generalize w; change (frame (MonoProvider_get_rate net));
      unfold MonoProvider_get_rate, mono_body
    | generalize w; change (frame (PrivatbankProvider_get_rate net));
      unfold PrivatbankProvider_get_rate, privatbank_body
    | generalize w; change (frame (NationalBankProvider_get_rate net));
      unfold NationalBankProvider_get_rate, nationalbank_body
    | generalize w; change (frame (VKurseProvider_get_rate net));
      unfold VKurseProvider_get_rate ];
    unfold requests_get, raise_for_status, response_json, raise_not_found;
    frame_auto.
Qed.

(** C10. For every provider class, [get_rate] never modifies the
    configuration of the provider: after any call, whether it returns or
    raises, on any network, the store (the instance attributes
    [currency_from] and [currency_to], the class of the instance and hence
    its [name], and the class-level tables [iso_from_country_code] and
    [country_code]) is the one the call started with; for a provider built
    by the module these are the values set at construction. *)
Theorem get_rate_preserves_configuration :
  (forall (net : network) (w : world), heap (fst (get_rate net w)) = heap w)
  /\ (forall (C : provider_class) (from to : string) (net : network),
        let st := heap (fst (call C from to net)) in
        currency_from (self st) = from /\
        currency_to (self st) = to /\
        name st = class_name C /\
        iso_from_country_code (classes st) = [("UAH", 980); ("USD", 840); ("EUR", 978)] /\
        country_code (classes st) = [("USD", "Dollar"); ("EUR", "Euro")]).
Proof.
  split; [exact frame_get_rate|].
  intros C from to net st. subst st. unfold call.
  rewrite frame_get_rate. cbn. now destruct C.
Qed.

(** ** Codes outside the translation tables (C6) *)

Lemma get_rate_failed (net : network) (w : world) (e : exn) :
  net (url_of (cls (self (heap w)))) = Raise e ->
  snd (get_rate net w) = Raise e.
Proof.
  intros Hn. destruct (get_rate_prologue net w) as [k ->].
  now rewrite (prologue_failed net w _ k e Hn).
Qed.

Lemma get_rate_refused (net : network) (w : world) (response : Response) (e : exn) :
  net (url_of (cls (self (heap w)))) = Ok response ->
  status_error response = Some e ->
  snd (get_rate net w) = Raise e.
Proof.
  intros Hn Hs. destruct (get_rate_prologue net w) as [k ->].
  now rewrite (prologue_refused net w _ k response e Hn Hs).
Qed.

(** C6. For Mono and VKurse, when a requested code that the class
    translates is absent from its table (for Mono [from] or [to], e.g.
    GBP; for VKurse [from]), [get_rate] never returns a [SellBuy]: on every
    network the call fails.  Once the HTTP exchange has succeeded the
    failure is the raw [KeyError] of the table lookup, carrying the
    untranslated code, and not [RateNotFound]; it is raised before the body
    is parsed, whatever the body holds. *)
Theorem unmapped_code_raises_KeyError
    (C : provider_class) (from to : string) (net : network) :
  C = MonoProvider \/ C = VKurseProvider ->
  translated C from to = false ->
  is_ok (rate C from to net) = false
  /\ (forall response,
        net (url_of C) = Ok response -> status_error response = None ->
        call C from to net =
          (checked C (start C from to), Raise (KeyError (untranslated C from to)))
        /\ is_rate_not_found (rate C from to net) = false).
Proof.
  intros HC Ht.
  assert (Hkey : forall response,
             net (url_of C) = Ok response -> status_error response = None ->
             call C from to net =
               (checked C (start C from to), Raise (KeyError (untranslated C from to)))).
  { intros response Hn Hs. unfold call, get_rate. cbn [start heap init self cls].
    destruct HC as [-> | ->]; cbn [translated untranslated url_of] in *.
    - destruct (numeric from) as [a|] eqn:Ha.
      + destruct (numeric to) as [b|] eqn:Hb; [discriminate|].
        exact (Mono_unmapped_to net (start MonoProvider from to) response a Hn Hs Ha Hb).
      + exact (Mono_unmapped_from net (start MonoProvider from to) response Hn Hs Ha).
    - destruct (english_name from) eqn:Hk; [discriminate|].
      exact (VKurse_unmapped net (start VKurseProvider from to) response Hn Hs Hk). }
  split.
  - unfold rate.
    destruct (net (url_of C)) as [response|e] eqn:Hn.
    + destruct (status_error response) as [e|] eqn:Hs.
      * unfold call. now rewrite (get_rate_refused net (start C from to) response e Hn Hs).
      * now rewrite (Hkey response eq_refl Hs).
    + unfold call. now rewrite (get_rate_failed net (start C from to) e Hn).
  - intros response Hn Hs. split; [exact (Hkey response Hn Hs)|].
    unfold rate. now rewrite (Hkey response Hn Hs).
Qed.

Lemma unmapped_code_raises_KeyError_witness :
  is_ok (rate MonoProvider "GBP" "UAH" (serving (JList []))) = false
  /\ call MonoProvider "GBP" "UAH" (serving (JList [])) =
       (checked MonoProvider (start MonoProvider "GBP" "UAH"), Raise (KeyError "GBP")).
Proof.
  destruct (unmapped_code_raises_KeyError MonoProvider "GBP" "UAH"
              (serving (JList [])) (or_introl eq_refl) eq_refl) as [H1 H2].
  split; [exact H1|].
  exact (proj1 (H2 _ eq_refl eq_refl)).
Defined.

(** ** Conversions never raise [RateNotFound] *)

Lemma rbind_not_found {A B} (r : result A) (k : A -> result B) :
  is_rate_not_found r = false ->
  (forall a, is_rate_not_found (k a) = false) ->
  is_rate_not_found (rbind r k) = false.
Proof. destruct r as [a|e]; cbn [rbind]; auto. Qed.

Lemma subscript_not_found (v : json) (k : string) :
  is_rate_not_found (subscript v k) = false.
Proof.
  destruct v; try reflexivity. cbn [subscript]. now destruct (dict_lookup k d).
Qed.

Lemma of_int_not_found (z : Z) : is_rate_not_found (PyFloat.of_int z) = false.
Proof.
  unfold PyFloat.of_int. now destruct (is_infinity _).
Qed.

Lemma py_float_not_found (v : json) : is_rate_not_found (py_float v) = false.
Proof.
  destruct v; try reflexivity; cbn [py_float].
  - apply of_int_not_found.
  - now destruct (PyFloat.of_str s).
Qed.

Lemma py_add_float_not_found (v : json) (c : float) :
  is_rate_not_found (py_add_float v c) = false.
Proof.
  destruct v; try reflexivity. cbn [py_add_float].
  pose proof (of_int_not_found z) as H. now destruct (PyFloat.of_int z).
Qed.

Lemma value_of_not_found (C : provider_class) (r : json) :
  is_rate_not_found (value_of C r) = false.
Proof.
  destruct C; cbn [value_of];
    unfold mono_value, privatbank_value, nationalbank_value, vkurse_value;
    repeat (apply rbind_not_found;
            [ first [ apply subscript_not_found | apply py_float_not_found
                    | apply py_add_float_not_found ]
            | intros ? ]);
    reflexivity.
Qed.

(** ** No matching record (C1) *)

(** C1, as amended.  For every provider class, when the requested codes
    are in the translation table of the class (Mono: [from] and [to];
    VKurse: [from]; the other two classes have none) and the parsed
    response has the shape the class expects and holds no record matching
    the requested pair under the matching rule of the class, [get_rate]
    fails with [RateNotFound] whose message is exactly
    "Cannot find rate from {from} to {to} in provider {name}", where
    {name} is the name of the provider. *)
Theorem no_match_raises_RateNotFound
    (C : provider_class) (from to : string) (net : network) (body : json) :
  translated C from to = true ->
  delivers net C body ->
  no_match C from to body = true ->
  rate C from to net =
    Raise (RateNotFound ("Cannot find rate from " ++ from ++ " to " ++ to
                           ++ " in provider " ++ class_name C))
  /\ In (class_name C) ["monobank"; "privatbank"; "NationalBank"; "VKurse"].
Proof.
  intros Ht Hd Hm. split; [|destruct C; cbn; auto].
  change (rate C from to net =
            Raise (RateNotFound (not_found_message from to (class_name C)))).
  unfold rate.
  destruct (array_scanning C) eqn:HC.
  - assert (exists rs, body = JList rs /\
              forallb (fun x => record_shape C x && negb (matches C from to x)) rs = true)
      as (rs & -> & Hrs).
    { destruct C; try discriminate HC; cbn [no_match] in Hm;
        destruct body; try discriminate Hm; eauto. }
    now rewrite (call_none_match C from to net rs HC Ht Hd Hrs).
  - destruct C; try discriminate HC.
    cbn [translated no_match] in Ht, Hm.
    destruct (english_name from) as [key|] eqn:Hk; [|discriminate].
    destruct body as [| | | | | |d]; try discriminate Hm.
    destruct (dict_lookup key d) eqn:Hl; [discriminate|].
    unfold call, get_rate. cbn [start heap init self cls].
    rewrite (VKurse_run net (start VKurseProvider from to) _ key Hd Hk).
    cbn [py_get]. rewrite Hl. reflexivity.
Qed.

Lemma no_match_raises_RateNotFound_witness :
  rate MonoProvider "USD" "EUR" (serving (JList [mono_usd_uah])) =
    Raise (RateNotFound "Cannot find rate from USD to EUR in provider monobank").
Proof.
  exact (proj1 (no_match_raises_RateNotFound MonoProvider "USD" "EUR"
                  (serving (JList [mono_usd_uah])) (JList [mono_usd_uah])
                  eq_refl (serving_delivers _ _) eq_refl)).
Defined.

(** C1 as stated fails: with a code outside Mono's table the response
    holds no matching record (here it holds no record at all), and the
    call raises [KeyError] from the table lookup, not [RateNotFound]. *)
Lemma no_match_unmapped_counterexample :
  delivers (serving (JList [])) MonoProvider (JList [])
  /\ forallb (fun r => negb (matches MonoProvider "GBP" "UAH" r)) [] = true
  /\ rate MonoProvider "GBP" "UAH" (serving (JList [])) = Raise (KeyError "GBP")
  /\ rate MonoProvider "GBP" "UAH" (serving (JList []))
     <> Raise (RateNotFound "Cannot find rate from GBP to UAH in provider monobank").
Proof.
  split; [apply serving_delivers|].
  split; [reflexivity|].
  split; [reflexivity|].
  discriminate.
Qed.

(** ** VKurse: when [RateNotFound] is raised (C5) *)

(** C5, as amended.  For the VKurse class, with [from] in the name table
    {USD: "Dollar", EUR: "Euro"} and a response that parses to an object,
    [get_rate] raises [RateNotFound] exactly when the object lacks the key
    [from] translates to or holds a false value under it ([None], an empty
    object, ...).  A [from] absent from the table makes the table lookup
    itself raise [KeyError]: the key lookup in the response is not
    reached. *)
Theorem VKurse_RateNotFound_iff :
  country_code module_classes = [("USD", "Dollar"); ("EUR", "Euro")]
  /\ (forall (from to : string) (net : network) (d : list (string * json)) (key : string),
        english_name from = Some key ->
        delivers net VKurseProvider (JDict d) ->
        (is_rate_not_found (rate VKurseProvider from to net) = true <->
         (dict_lookup key d = None \/
          exists v, dict_lookup key d = Some v /\ truthy v = false)))
  /\ (forall (from to : string) (net : network) (body : json),
        english_name from = None ->
        delivers net VKurseProvider body ->
        rate VKurseProvider from to net = Raise (KeyError from)).
Proof.
  split; [reflexivity|]. split.
  - intros from to net d key Hk Hd.
    unfold rate, call, get_rate. cbn [start heap init self cls].
    rewrite (VKurse_run net (start VKurseProvider from to) _ key Hd Hk).
    cbn [py_get].
    destruct (dict_lookup key d) as [v|] eqn:Hl.
    + destruct (truthy v) eqn:Hv; cbn [snd].
      * pose proof (value_of_not_found VKurseProvider v) as Hnf.
        cbn [value_of] in Hnf. rewrite Hnf. split; [discriminate|].
        intros [H | (v' & H & Hv')]; [discriminate|].
        injection H as <-. congruence.
      * split; [|reflexivity]. intros _. right. now exists v.
    + cbn [truthy snd raise_not_found]. split; [now left | reflexivity].
  - intros from to net body Hk (response & Hn & Hs & _).
    unfold rate, call, get_rate. cbn [start heap init self cls].
    now rewrite (VKurse_unmapped net (start VKurseProvider from to) response Hn Hs Hk).
Qed.

Lemma VKurse_RateNotFound_iff_witness :
  is_rate_not_found
    (rate VKurseProvider "EUR" "UAH" (serving (JDict [("Dollar", JDict [])]))) = true
  /\ rate VKurseProvider "GBP" "UAH" (serving (JDict [])) = Raise (KeyError "GBP").
Proof.
  destruct VKurse_RateNotFound_iff as (_ & H1 & H2). split.
  - apply (H1 "EUR" "UAH" (serving (JDict [("Dollar", JDict [])]))
             [("Dollar", JDict [])] "Euro" eq_refl (serving_delivers _ _)).
    left. reflexivity.
  - exact (H2 "GBP" "UAH" (serving (JDict [])) (JDict []) eq_refl (serving_delivers _ _)).
Defined.

(** C5 as stated fails on both sides: a [from] outside the name table
    raises [KeyError] from the table lookup instead of falling through to
    [RateNotFound], and a response that has the translated key, with an
    empty object under it, raises [RateNotFound] all the same. *)
Lemma VKurse_only_trigger_counterexample :
  (english_name "GBP" = None
   /\ rate VKurseProvider "GBP" "UAH" (serving (JDict [])) = Raise (KeyError "GBP"))
  /\ (english_name "USD" = Some "Dollar"
      /\ dict_lookup "Dollar" [("Dollar", JDict [])] = Some (JDict [])
      /\ rate VKurseProvider "USD" "UAH" (serving (JDict [("Dollar", JDict [])])) =
           Raise (RateNotFound "Cannot find rate from USD to UAH in provider VKurse")).
Proof. repeat split. Qed.

(** ** Mono: the first matching record (C2) *)

(** C2. For the Mono class, with both codes in the fixed table
    {UAH: 980, USD: 840, EUR: 978}, [get_rate] returns the pair built from
    the first record whose [currencyCodeA] equals numeric(from) and whose
    [currencyCodeB] equals numeric(to), with [sell = float(rateSell)] and
    [buy = float(rateBuy)].  In particular, for (USD, UAH) and the record
    {currencyCodeA: 840, currencyCodeB: 980, rateSell: "27.5",
    rateBuy: "27.0"}, whose rates are strings, the result is
    [SellBuy(sell=27.5, buy=27.0)]. *)
Theorem Mono_returns_first_match :
  iso_from_country_code module_classes = [("UAH", 980); ("USD", 840); ("EUR", 978)]
  /\ (forall (from to : string) (a b : Z) (net : network)
        (pre post : list json) (r x y : json) (fs fb : float),
        numeric from = Some a -> numeric to = Some b ->
        delivers net MonoProvider (JList (pre ++ r :: post)) ->
        forallb (fun c => record_shape MonoProvider c && negb (mono_matches a b c)) pre = true ->
        mono_matches a b r = true ->
        field "rateSell" r = Some x -> py_float x = Ok fs ->
        field "rateBuy" r = Some y -> py_float y = Ok fb ->
        rate MonoProvider from to net = Ok {| sell := fs; buy := fb |})
  /\ rate MonoProvider "USD" "UAH" (serving (JList [mono_usd_uah])) =
       Ok {| sell := 27.5; buy := 27 |}.
Proof.
  split; [reflexivity|]. split; [|reflexivity].
  intros from to a b net pre post r x y fs fb Ha Hb Hd Hpre Hr Hx Hfs Hy Hfb.
  unfold rate, call, get_rate. cbn [start heap init self cls].
  rewrite (Mono_run net (start MonoProvider from to) _ a b Hd Ha Hb).
  rewrite (scan_first _ pre post r (mono_value r)).
  - cbn [snd]. unfold mono_value.
    rewrite (field_subscript _ _ _ Hx), (field_subscript _ _ _ Hy).
    cbn [rbind]. rewrite Hfs. cbn [rbind]. now rewrite Hfb.
  - rewrite forallb_forall in Hpre. apply Forall_forall. intros c Hc.
    destruct (andb_prop _ _ (Hpre c Hc)) as [Hs Hm].
    apply mono_body_skip; [exact Hs|]. now apply negb_true_iff.
  - now apply mono_body_hit.
Qed.

Lemma Mono_returns_first_match_witness :
  rate MonoProvider "USD" "UAH"
    (serving (JList [JDict [("currencyCodeA", JInt 978); ("currencyCodeB", JInt 980)];
                     mono_usd_uah; mono_usd_uah])) =
    Ok {| sell := 27.5; buy := 27 |}.
Proof.
  exact (proj1 (proj2 Mono_returns_first_match) "USD" "UAH" 840 980
           (serving (JList [JDict [("currencyCodeA", JInt 978); ("currencyCodeB", JInt 980)];
                            mono_usd_uah; mono_usd_uah]))
           [JDict [("currencyCodeA", JInt 978); ("currencyCodeB", JInt 980)]]
           [mono_usd_uah] mono_usd_uah (JStr "27.5") (JStr "27.0") 27.5%float 27%float
           eq_refl eq_refl (serving_delivers _ _) eq_refl eq_refl
           eq_refl eq_refl eq_refl eq_refl).
Defined.

(** ** The national bank: matching on [cc] alone, and the markup (C3) *)

Lemma for_each_pure {A} (body : json -> M (option A))
    (step : json -> result (option A)) (w : world) (l : list json) :
  (forall x, body x w = (w, step x)) ->
  for_each body l w = (w, first_hit step l).
Proof.
  intros H. induction l as [|x l IH]; [reflexivity|].
  cbn [for_each first_hit]. unfold bind. rewrite H.
  destruct (step x) as [[a|]|e]; [reflexivity | exact IH | reflexivity].
Qed.

Lemma nationalbank_body_step (r : json) (w : world) :
  nationalbank_body r w = (w, nationalbank_step (currency_from (self (heap w))) r).
Proof.
  unfold nationalbank_body, nationalbank_step. run_body.
  destruct (subscript r "cc") as [cc|e]; [|reflexivity].
  destruct (py_eq_str cc _); [|reflexivity].
  now destruct (nationalbank_value r).
Qed.






(** ** Privatbank: exact string match and conversion (C4) *)

Lemma py_eq_str_eq (v : json) (s : string) :
  py_eq_str v s = true <-> v = JStr s.
Proof.
  destruct v; cbn [py_eq_str]; try (split; discriminate).
  rewrite String.eqb_eq. split; [now intros -> | now intros [= ->]].
Qed.

Lemma privatbank_matches_eq (from to : string) (r : json) :
  privatbank_matches from to r = true <->
  field "ccy" r = Some (JStr from) /\ field "base_ccy" r = Some (JStr to).
Proof.
  unfold privatbank_matches.
  destruct (field "ccy" r) as [x|]; [|split; [discriminate | now intros [? _]]].
  destruct (field "base_ccy" r) as [y|]; [|split; [discriminate | now intros [_ ?]]].
  rewrite andb_true_iff, !py_eq_str_eq.
  split; intros [H1 H2]; split; congruence.
Qed.

(** C4. For the Privatbank class a record matches exactly when its [ccy]
    is the string [from] and its [base_ccy] is the string [to], letter
    case included: the first such record is converted, the records before
    it that are not such are passed over, and a response whose records are
    all not such raises [RateNotFound].  On a match the pair returned has
    [buy = float(buy field)] and [sell = float(sale field)], the floats
    exactly as parsed. *)
Theorem Privatbank_exact_match_and_conversion :
  (forall (from to : string) (net : network) (pre post : list json)
      (r x y : json) (fb fs : float),
      delivers net PrivatbankProvider (JList (pre ++ r :: post)) ->
      Forall (fun c =>
                record_shape PrivatbankProvider c = true /\
                ~ (field "ccy" c = Some (JStr from) /\
                   field "base_ccy" c = Some (JStr to))) pre ->
      field "ccy" r = Some (JStr from) ->
      field "base_ccy" r = Some (JStr to) ->
      field "buy" r = Some x -> py_float x = Ok fb ->
      field "sale" r = Some y -> py_float y = Ok fs ->
      rate PrivatbankProvider from to net = Ok {| sell := fs; buy := fb |})
  /\ (forall (from to : string) (net : network) (rs : list json),
        delivers net PrivatbankProvider (JList rs) ->
        Forall (fun c =>
                  record_shape PrivatbankProvider c = true /\
                  ~ (field "ccy" c = Some (JStr from) /\
                     field "base_ccy" c = Some (JStr to))) rs ->
        is_rate_not_found (rate PrivatbankProvider from to net) = true)
  /\ rate PrivatbankProvider "USD" "UAH" (serving (JList [privat_lowercase; privat_usd_uah])) =
       Ok {| sell := 27.5; buy := 27 |}
  /\ is_rate_not_found
       (rate PrivatbankProvider "USD" "UAH" (serving (JList [privat_lowercase]))) = true.
Proof.
  assert (Hpass : forall from to rs,
             Forall (fun c =>
                       record_shape PrivatbankProvider c = true /\
                       ~ (field "ccy" c = Some (JStr from) /\
                          field "base_ccy" c = Some (JStr to))) rs ->
             forallb (fun c => record_shape PrivatbankProvider c
                               && negb (matches PrivatbankProvider from to c)) rs = true).
  { intros from to rs H. apply forallb_forall. intros c Hc.
    rewrite Forall_forall in H. destruct (H c Hc) as [Hs Hn].
    rewrite Hs. cbn [andb matches]. apply negb_true_iff.
    destruct (privatbank_matches from to c) eqn:Hm; [|reflexivity].
    now apply privatbank_matches_eq in Hm. }
  split; [|split; [|split; reflexivity]].
  - intros from to net pre post r x y fb fs Hd Hpre Hc Hb Hx Hfb Hy Hfs.
    assert (Hm : matches PrivatbankProvider from to r = true).
    { cbn [matches]. now apply privatbank_matches_eq. }
    unfold rate.
    rewrite (call_first_match PrivatbankProvider from to net pre post r
               eq_refl eq_refl Hd (Hpass _ _ _ Hpre) Hm).
    cbn [snd value_of]. unfold privatbank_value.
    rewrite (field_subscript _ _ _ Hx), (field_subscript _ _ _ Hy).
    cbn [rbind]. rewrite Hfb. cbn [rbind]. now rewrite Hfs.
  - intros from to net rs Hd Hrs. unfold rate.
    now rewrite (call_none_match PrivatbankProvider from to net rs
                   eq_refl eq_refl Hd (Hpass _ _ _ Hrs)).
Qed.

Lemma Privatbank_exact_match_and_conversion_witness :
  rate PrivatbankProvider "USD" "UAH" (serving (JList [privat_lowercase; privat_usd_uah])) =
    Ok {| sell := 27.5; buy := 27 |}.
Proof.
  refine (proj1 Privatbank_exact_match_and_conversion "USD" "UAH"
            (serving (JList [privat_lowercase; privat_usd_uah]))
            [privat_lowercase] [] privat_usd_uah (JStr "27.0") (JStr "27.5")
            27%float 27.5%float
            (serving_delivers _ _) _ eq_refl eq_refl eq_refl eq_refl eq_refl eq_refl).
  constructor; [|constructor].
  split; [reflexivity|]. intros [H _]. discriminate H.
Defined.

(** ** The earliest match wins (C8) *)

Lemma matches_translated (C : provider_class) (from to : string) (r : json) :
  matches C from to r = true -> translated C from to = true.
Proof.
  destruct C; cbn [matches translated]; try reflexivity; try discriminate.
  destruct (numeric from); [|discriminate].
  now destruct (numeric to).
Qed.





(** ** The national bank and string-typed rates (C9) *)

(** C9, as amended.  For the national bank class the [sell] argument
    adds 0.5 to the raw [rate] field before the float cast.  So when the
    first record whose [cc] is [from] has a string for its [rate],
    [get_rate] never returns a pair: with a string [float()] accepts (a
    string-typed number, as in Mono's feed) it raises the [TypeError] of
    the addition, and with any other string the [ValueError] of the cast
    of the [buy] argument, which comes first.  The same rate given as a
    number is converted, and Mono converts its string-typed rates. *)
Theorem NationalBank_string_rate_fails :
  (forall (from to : string) (net : network) (pre post : list json) (r : json) (s : string),
      delivers net NationalBankProvider (JList (pre ++ r :: post)) ->
      forallb (fun c => has_field "cc" c && negb (nationalbank_matches from c)) pre = true ->
      field "cc" r = Some (JStr from) ->
      field "rate" r = Some (JStr s) ->
      is_ok (rate NationalBankProvider from to net) = false
      /\ (forall f, PyFloat.of_str s = Some f ->
            rate NationalBankProvider from to net = Raise TypeError)
      /\ (PyFloat.of_str s = None ->
            rate NationalBankProvider from to net = Raise ValueError))
  /\ rate NationalBankProvider "USD" "UAH" (serving (JList [nbu_usd_as_string])) =
       Raise TypeError
  /\ is_ok (rate NationalBankProvider "USD" "UAH" (serving (JList [nbu_usd]))) = true
  /\ is_ok (rate MonoProvider "USD" "UAH" (serving (JList [mono_usd_uah]))) = true.
Proof.
  split; [|repeat split].
  intros from to net pre post r s Hd Hpre Hcc Hrate.
  assert (Hm : matches NationalBankProvider from to r = true).
  { cbn [matches]. unfold nationalbank_matches. rewrite Hcc.
    cbn [py_eq_str]. apply String.eqb_refl. }
  unfold rate.
  rewrite (call_first_match NationalBankProvider from to net pre post r
             eq_refl eq_refl Hd Hpre Hm).
  cbn [snd value_of]. unfold nationalbank_value.
  rewrite (field_subscript _ _ _ Hrate). cbn [rbind py_float].
  destruct (PyFloat.of_str s) as [f|]; cbn [rbind py_add_float].
  - split; [reflexivity|]. split; [reflexivity | discriminate].
  - split; [reflexivity|]. split; [discriminate | reflexivity].
Qed.

Lemma NationalBank_string_rate_fails_witness :
  rate NationalBankProvider "USD" "UAH"
    (serving (JList [nbu_usd_as_string; nbu_usd])) = Raise TypeError.
Proof.
  exact (proj1 (proj2 (proj1 NationalBank_string_rate_fails "USD" "UAH"
                         (serving (JList [nbu_usd_as_string; nbu_usd]))
                         [] [nbu_usd] nbu_usd_as_string "27.0"
                         (serving_delivers _ _) eq_refl eq_refl eq_refl))
           27%float eq_refl).
Defined.

(** C9 as stated fails: a matching record whose rate is a string that is
    no number makes the call fail with [ValueError], raised by
    [float(currency["rate"])] in the [buy] argument before the addition is
    reached, and not with a type error. *)
Lemma NationalBank_string_rate_counterexample :
  field "rate" (JDict [("cc", JStr "USD"); ("rate", JStr "n/a")]) = Some (JStr "n/a")
  /\ matches NationalBankProvider "USD" "UAH"
       (JDict [("cc", JStr "USD"); ("rate", JStr "n/a")]) = true
  /\ rate NationalBankProvider "USD" "UAH"
       (serving (JList [JDict [("cc", JStr "USD"); ("rate", JStr "n/a")]])) =
       Raise ValueError
  /\ rate NationalBankProvider "USD" "UAH"
       (serving (JList [JDict [("cc", JStr "USD"); ("rate", JStr "n/a")]])) <>
       Raise TypeError.
Proof.
  split; [reflexivity|]. split; [reflexivity|]. split; [reflexivity|]. discriminate.
Qed.

(** * Further properties of the four methods *)

(** ** The loops as functions of the items *)

Lemma mono_body_step (a b : Z) (r : json) (w : world) :
  mono_body a b r w = (w, mono_step a b r).
Proof.
  unfold mono_body, mono_step. run_body.
  destruct (subscript r "currencyCodeA") as [x|e]; [|reflexivity].
  destruct (py_eq_int x a); [|reflexivity].
  destruct (subscript r "currencyCodeB") as [y|e]; [|reflexivity].
  destruct (py_eq_int y b); [|reflexivity].
  now destruct (mono_value r).
Qed.

Lemma privatbank_body_step (r : json) (w : world) :
  privatbank_body r w =
    (w, privatbank_step (currency_from (self (heap w))) (currency_to (self (heap w))) r).
Proof.
  unfold privatbank_body, privatbank_step. run_body.
  destruct (subscript r "ccy") as [x|e]; [|reflexivity].
  destruct (py_eq_str x _); [|reflexivity].
  destruct (subscript r "base_ccy") as [y|e]; [|reflexivity].
  destruct (py_eq_str y _); [|reflexivity].
  now destruct (privatbank_value r).
Qed.

Lemma scan_pure (body : json -> M (option SellBuy))
    (step : json -> result (option SellBuy)) (data : json) (w : world) :
  (forall x, body x w = (w, step x)) ->
  scan body data w =
    (w, items <~ py_iter data ;;
        match first_hit step items with
        | Ok (Some value) => Ok value
        | Ok None =>
            Raise (RateNotFound
                     (not_found_message (currency_from (self (heap w)))
                        (currency_to (self (heap w))) (name (heap w))))
        | Raise e => Raise e
        end).
Proof.
  intros H. unfold scan.
  destruct (py_iter data) as [items|e]; [|reflexivity].
  cbn [rbind]. rewrite (for_each_pure body step w items H).
  now destruct (first_hit step items) as [[v|]|e].
Qed.

Lemma call_scan (C : provider_class) (from to : string) (net : network) (body : json) :
  array_scanning C = true ->
  translated C from to = true ->
  delivers net C body ->
  call C from to net = (fetched C (start C from to), scan_outcome C from to body).
Proof.
  intros HC Ht Hd. unfold call, get_rate. cbn [start heap init self cls].
  destruct C; try discriminate HC; unfold scan_outcome; cbn [step_of].
  - destruct (translated_Mono _ _ Ht) as (a & b & Ha & Hb). rewrite Ha, Hb.
    rewrite (Mono_run net (start MonoProvider from to) _ a b Hd Ha Hb).
    apply scan_pure. intros x. apply mono_body_step.
  - rewrite (Privatbank_run net (start PrivatbankProvider from to) _ Hd).
    apply scan_pure. intros x. apply privatbank_body_step.
  - rewrite (NationalBank_run net (start NationalBankProvider from to) _ Hd).
    apply scan_pure. intros x. apply nationalbank_body_step.
Qed.

Lemma first_hit_skip {A} (step : json -> result (option A)) (pre l : list json) :
  Forall (fun x => step x = Ok None) pre ->
  first_hit step (pre ++ l) = first_hit step l.
Proof.
  induction 1 as [|x pre Hx _ IH]; [reflexivity|].
  cbn [app first_hit]. now rewrite Hx.
Qed.

Lemma first_hit_none {A} (step : json -> result (option A)) (l : list json) :
  first_hit step l = Ok None -> Forall (fun x => step x = Ok None) l.
Proof.
  induction l as [|x l IH]; [constructor|].
  cbn [first_hit]. destruct (step x) as [[a|]|e] eqn:Hx; try discriminate.
  intros H. constructor; [exact Hx | exact (IH H)].
Qed.

Lemma first_hit_raise {A} (step : json -> result (option A)) (l : list json) (e : exn) :
  first_hit step l = Raise e -> exists x, In x l /\ step x = Raise e.
Proof.
  induction l as [|x l IH]; [discriminate|].
  cbn [first_hit]. destruct (step x) as [[a|]|e'] eqn:Hx; intros H.
  - discriminate.
  - destruct (IH H) as (y & Hy & Hs). exists y. split; [now right | exact Hs].
  - exists x. split; [now left | congruence].
Qed.

(** A record the method passes over makes the step function fall
    through. *)
Lemma step_passed_over (C : provider_class) (from to : string) (x : json) :
  array_scanning C = true ->
  translated C from to = true ->
  record_shape C x && negb (matches C from to x) = true ->
  step_of C from to x = Ok None.
Proof.
  intros HC Ht [Hs Hm%negb_true_iff]%andb_prop.
  destruct C; try discriminate HC; cbn [step_of].
  - destruct (translated_Mono _ _ Ht) as (a & b & Ha & Hb).
    cbn [matches] in Hm. rewrite Ha, Hb in *.
    pose proof (mono_body_skip a b x (start MonoProvider from to) Hs Hm) as H.
    rewrite mono_body_step in H. congruence.
  - pose proof (privatbank_body_skip x (start PrivatbankProvider from to) Hs Hm) as H.
    rewrite privatbank_body_step in H. cbn in H. congruence.
  - pose proof (nationalbank_body_skip x (start NationalBankProvider from to) Hs Hm) as H.
    rewrite nationalbank_body_step in H. cbn in H. congruence.
Qed.

(** ** Failures of the HTTP layer *)

(** X1. When [requests.get] itself raises (no connection, time-out, ...),
    [get_rate] of every class raises that same exception, and the GET is
    the only call made on the HTTP layer: no status check, no parsing, no
    second attempt. *)
Theorem request_failure_propagates (net : network) (w : world) (e : exn) :
  net (url_of (cls (self (heap w)))) = Raise e ->
  get_rate net w =
    ({| heap := heap w; log := log w ++ [EvGet (url_of (cls (self (heap w))))] |},
     Raise e).
Proof.
  intros Hn. destruct (get_rate_prologue net w) as [k ->].
  exact (prologue_failed net w _ k e Hn).
Qed.

Lemma request_failure_propagates_witness :
  call VKurseProvider "USD" "UAH" (unreachable (RequestException "timeout")) =
    ({| heap := init VKurseProvider "USD" "UAH"; log := [EvGet vkurse_url] |},
     Raise (RequestException "timeout")).
Proof.
  exact (request_failure_propagates (unreachable (RequestException "timeout"))
           (start VKurseProvider "USD" "UAH") (RequestException "timeout") eq_refl).
Defined.

Section BodyErrors.

Variables (net : network) (w : world) (response : Response) (e : exn).

Hypothesis Hn : net (url_of (cls (self (heap w)))) = Ok response.
Hypothesis Hs : status_error response = None.
Hypothesis Hj : json_result response = Raise e.

Lemma Mono_json_error (a b : Z) :
  cls (self (heap w)) = MonoProvider ->
  dict_lookup (currency_from (self (heap w))) (iso_from_country_code (classes (heap w))) = Some a ->
  dict_lookup (currency_to (self (heap w))) (iso_from_country_code (classes (heap w))) = Some b ->
  MonoProvider_get_rate net w = (fetched MonoProvider w, Raise e).
Proof.
  intros HC Ha Hb. rewrite HC in Hn. cbn [url_of] in Hn.
  unfold MonoProvider_get_rate. run_method. rew Hn. rew Hs.
  rew Ha. rew Hb. rew Hj. unfold fetched. now log_assoc.
Qed.

Lemma Privatbank_json_error :
  cls (self (heap w)) = PrivatbankProvider ->
  PrivatbankProvider_get_rate net w = (fetched PrivatbankProvider w, Raise e).
Proof.
  intros HC. rewrite HC in Hn. cbn [url_of] in Hn.
  unfold PrivatbankProvider_get_rate. run_method. rew Hn. rew Hs. rew Hj.
  unfold fetched. now log_assoc.
Qed.

Lemma NationalBank_json_error :
  cls (self (heap w)) = NationalBankProvider ->
  NationalBankProvider_get_rate net w = (fetched NationalBankProvider w, Raise e).
Proof.
  intros HC. rewrite HC in Hn. cbn [url_of] in Hn.
  unfold NationalBankProvider_get_rate. run_method. rew Hn. rew Hs. rew Hj.
  unfold fetched. now log_assoc.
Qed.

Lemma VKurse_json_error (key : string) :
  cls (self (heap w)) = VKurseProvider ->
  dict_lookup (currency_from (self (heap w))) (country_code (classes (heap w))) = Some key ->
  VKurseProvider_get_rate net w = (fetched VKurseProvider w, Raise e).
Proof.
  intros HC Hk. rewrite HC in Hn. cbn [url_of] in Hn.
  unfold VKurseProvider_get_rate. run_method. rew Hn. rew Hs. rew Hk. rew Hj.
  unfold fetched. now log_assoc.
Qed.

End BodyErrors.

(** X2. When the status is a success and [response.json()] raises (the
    body is not JSON), [get_rate] raises that same exception, for every
    class, provided the codes the class translates are in its table (the
    table lookups of Mono and VKurse come before the parsing). *)
Theorem json_error_propagates
    (C : provider_class) (from to : string) (net : network)
    (response : Response) (e : exn) :
  translated C from to = true ->
  net (url_of C) = Ok response ->
  status_error response = None ->
  json_result response = Raise e ->
  call C from to net = (fetched C (start C from to), Raise e).
Proof.
  intros Ht Hn Hs Hj. unfold call, get_rate. cbn [start heap init self cls].
  destruct C.
  - destruct (translated_Mono _ _ Ht) as (a & b & Ha & Hb).
    exact (Mono_json_error net (start MonoProvider from to) response e
             Hn Hs Hj a b eq_refl Ha Hb).
  - exact (Privatbank_json_error net (start PrivatbankProvider from to) response e
             Hn Hs Hj eq_refl).
  - exact (NationalBank_json_error net (start NationalBankProvider from to) response e
             Hn Hs Hj eq_refl).
  - cbn [translated] in Ht.
    destruct (english_name from) as [key|] eqn:Hk; [|discriminate].
    exact (VKurse_json_error net (start VKurseProvider from to) response e
             Hn Hs Hj key eq_refl Hk).
Qed.

Lemma json_error_propagates_witness :
  rate MonoProvider "USD" "UAH" (garbled JSONDecodeError) = Raise JSONDecodeError.
Proof.
  exact (f_equal snd
           (json_error_propagates MonoProvider "USD" "UAH" (garbled JSONDecodeError)
              {| status_error := None; json_result := Raise JSONDecodeError |}
              JSONDecodeError eq_refl eq_refl eq_refl eq_refl)).
Defined.

(** ** Records that are not as expected *)

(** X3. In the three scanning classes a record that is reached by the
    scan and lacks the field the condition reads first ([currencyCodeA],
    [ccy], [cc]) stops the call: it raises [KeyError] of that field when
    the record is an object and [TypeError] when it is not, and no later
    record is looked at, matching or not. *)
Theorem malformed_record_stops_scan
    (C : provider_class) (from to : string) (net : network)
    (pre post : list json) (r : json) :
  array_scanning C = true ->
  translated C from to = true ->
  delivers net C (JList (pre ++ r :: post)) ->
  forallb (fun c => record_shape C c && negb (matches C from to c)) pre = true ->
  field (key_field C) r = None ->
  rate C from to net =
    match r with
    | JDict _ => Raise (KeyError (key_field C))
    | _ => Raise TypeError
    end.
Proof.
  intros HC Ht Hd Hpre Hr. unfold rate.
  rewrite (call_scan C from to net _ HC Ht Hd). cbn [snd].
  unfold scan_outcome. cbn [py_iter rbind].
  rewrite first_hit_skip.
  2:{ rewrite forallb_forall in Hpre. apply Forall_forall. intros x Hx.
      apply step_passed_over; auto. }
  cbn [first_hit].
  assert (Hstep : step_of C from to r =
                    match r with
                    | JDict _ => Raise (KeyError (key_field C))
                    | _ => Raise TypeError
                    end).
  { destruct C; try discriminate HC; cbn [step_of key_field] in *.
    - destruct (translated_Mono _ _ Ht) as (a & b & -> & ->).
      unfold mono_step. destruct r; try reflexivity.
      cbn [field] in Hr. cbn [subscript]. now rewrite Hr.
    - unfold privatbank_step. destruct r; try reflexivity.
      cbn [field] in Hr. cbn [subscript]. now rewrite Hr.
    - unfold nationalbank_step. destruct r; try reflexivity.
      cbn [field] in Hr. cbn [subscript]. now rewrite Hr. }
  rewrite Hstep. now destruct r.
Qed.

Lemma malformed_record_stops_scan_witness :
  rate PrivatbankProvider "USD" "UAH"
    (serving (JList [privat_lowercase; JDict [("buy", JStr "1")]; privat_usd_uah])) =
    Raise (KeyError "ccy").
Proof.
  exact (malformed_record_stops_scan PrivatbankProvider "USD" "UAH"
           (serving (JList [privat_lowercase; JDict [("buy", JStr "1")]; privat_usd_uah]))
           [privat_lowercase] [privat_usd_uah] (JDict [("buy", JStr "1")])
           eq_refl eq_refl (serving_delivers _ _) eq_refl eq_refl).
Defined.

(** X4. In the three scanning classes, when the first matching record
    lacks the rate field its conversion reads first ([rateSell] for Mono,
    [buy] for Privatbank, [rate] for the national bank), the call raises
    [KeyError] of that field; it neither returns a default pair nor goes
    on to a later record. *)
Theorem missing_rate_field_raises_KeyError
    (C : provider_class) (from to : string) (net : network)
    (pre post : list json) (r : json) :
  array_scanning C = true ->
  delivers net C (JList (pre ++ r :: post)) ->
  forallb (fun c => record_shape C c && negb (matches C from to c)) pre = true ->
  matches C from to r = true ->
  field (first_rate_field C) r = None ->
  rate C from to net = Raise (KeyError (first_rate_field C)).
Proof.
  intros HC Hd Hpre Hm Hr. unfold rate.
  rewrite (call_first_match C from to net pre post r HC
             (matches_translated C from to r Hm) Hd Hpre Hm).
  cbn [snd].
  assert (Hd' : exists d, r = JDict d).
  { destruct r; try (now eexists);
      destruct C; try discriminate HC; cbn [matches] in Hm;
      try (destruct (numeric from); [destruct (numeric to)|]); discriminate Hm. }
  destruct Hd' as [d ->]. cbn [field] in Hr.
  destruct C; try discriminate HC; cbn [value_of first_rate_field] in *;
    unfold mono_value, privatbank_value, nationalbank_value;
    cbn [subscript]; now rewrite Hr.
Qed.

Lemma missing_rate_field_raises_KeyError_witness :
  rate NationalBankProvider "USD" "UAH"
    (serving (JList [JDict [("cc", JStr "USD")]; nbu_usd])) = Raise (KeyError "rate").
Proof.
  exact (missing_rate_field_raises_KeyError NationalBankProvider "USD" "UAH"
           (serving (JList [JDict [("cc", JStr "USD")]; nbu_usd]))
           [] [nbu_usd] (JDict [("cc", JStr "USD")])
           eq_refl (serving_delivers _ _) eq_refl eq_refl eq_refl).
Defined.

(** X5. The conditions of the Mono and Privatbank loops are
    short-circuit conjunctions: a record whose first field
    ([currencyCodeA], [ccy]) differs from the requested [from] is passed
    over without its second field being read, so it may lack that field;
    the first matching record after such records is the one converted. *)
Theorem second_field_read_only_after_first_matches :
  (forall (from to : string) (a b : Z) (net : network) (pre post : list json) (r : json),
      numeric from = Some a -> numeric to = Some b ->
      delivers net MonoProvider (JList (pre ++ r :: post)) ->
      Forall (fun c => exists x,
                field "currencyCodeA" c = Some x /\ py_eq_int x a = false) pre ->
      mono_matches a b r = true ->
      rate MonoProvider from to net = mono_value r)
  /\ (forall (from to : string) (net : network) (pre post : list json) (r : json),
        delivers net PrivatbankProvider (JList (pre ++ r :: post)) ->
        Forall (fun c => exists x,
                  field "ccy" c = Some x /\ py_eq_str x from = false) pre ->
        privatbank_matches from to r = true ->
        rate PrivatbankProvider from to net = privatbank_value r).
Proof.
  split.
  - intros from to a b net pre post r Ha Hb Hd Hpre Hm.
    assert (Ht : translated MonoProvider from to = true).
    { cbn [translated]. now rewrite Ha, Hb. }
    unfold rate. rewrite (call_scan MonoProvider from to net _ eq_refl Ht Hd).
    cbn [snd]. unfold scan_outcome. cbn [py_iter rbind step_of].
    rewrite Ha, Hb. rewrite first_hit_skip.
    + cbn [first_hit].
      pose proof (mono_body_hit a b r (start MonoProvider from to) Hm) as H.
      rewrite mono_body_step in H. injection H as ->.
      now destruct (mono_value r).
    + eapply Forall_impl; [|exact Hpre]. intros c (x & Hx & He).
      unfold mono_step. rewrite (field_subscript _ _ _ Hx).
      cbn [rbind]. now rewrite He.
  - intros from to net pre post r Hd Hpre Hm.
    unfold rate.
    rewrite (call_scan PrivatbankProvider from to net _ eq_refl eq_refl Hd).
    cbn [snd]. unfold scan_outcome. cbn [py_iter rbind step_of].
    rewrite first_hit_skip.
    + cbn [first_hit].
      pose proof (privatbank_body_hit r (start PrivatbankProvider from to) Hm) as H.
      rewrite privatbank_body_step in H. cbn [start heap init self currency_from currency_to] in H.
      injection H as ->.
      now destruct (privatbank_value r).
    + eapply Forall_impl; [|exact Hpre]. intros c (x & Hx & He).
      unfold privatbank_step. rewrite (field_subscript _ _ _ Hx).
      cbn [rbind]. now rewrite He.
Qed.

Lemma second_field_read_only_after_first_matches_witness :
  rate MonoProvider "USD" "UAH"
    (serving (JList [JDict [("currencyCodeA", JInt 978)]; mono_usd_uah])) =
    Ok {| sell := 27.5; buy := 27 |}.
Proof.
  refine (proj1 second_field_read_only_after_first_matches "USD" "UAH" 840 980
            (serving (JList [JDict [("currencyCodeA", JInt 978)]; mono_usd_uah]))
            [JDict [("currencyCodeA", JInt 978)]] [] mono_usd_uah
            eq_refl eq_refl (serving_delivers _ _) _ eq_refl).
  constructor; [|constructor].
  exists (JInt 978). split; reflexivity.
Defined.

(** ** VKurse *)

(** X6. For the VKurse class, with [from] in the name table and a response
    object holding, under the key [from] translates to, an object with
    [sale] and [buy], [get_rate] returns the pair with
    [sell = float(sale)] and [buy = float(buy)].  The requested [to] plays
    no part: the same pair is returned for every [to]. *)
Theorem VKurse_returns_named_entry
    (from : string) (net : network) (d : list (string * json))
    (key : string) (v x y : json) (fs fb : float) :
  english_name from = Some key ->
  delivers net VKurseProvider (JDict d) ->
  dict_lookup key d = Some v ->
  field "sale" v = Some x -> py_float x = Ok fs ->
  field "buy" v = Some y -> py_float y = Ok fb ->
  forall to, rate VKurseProvider from to net = Ok {| sell := fs; buy := fb |}.
Proof.
  intros Hk Hd Hv Hx Hfs Hy Hfb to.
  unfold rate, call, get_rate. cbn [start heap init self cls].
  rewrite (VKurse_run net (start VKurseProvider from to) _ key Hd Hk).
  cbn [py_get]. rewrite Hv.
  assert (Ht : truthy v = true).
  { destruct v; try discriminate Hx. cbn [field] in Hx. cbn [truthy].
    now destruct d0. }
  rewrite Ht. cbn [snd]. unfold vkurse_value.
  rewrite (field_subscript _ _ _ Hx), (field_subscript _ _ _ Hy).
  cbn [rbind]. rewrite Hfs. cbn [rbind]. now rewrite Hfb.
Qed.

Lemma VKurse_returns_named_entry_witness :
  rate VKurseProvider "EUR" "UAH"
    (serving (JDict [("Dollar", JDict [("sale", JStr "27.5"); ("buy", JStr "27.0")]);
                     ("Euro", JDict [("sale", JStr "30.5"); ("buy", JStr "29.5")])])) =
    Ok {| sell := 30.5; buy := 29.5 |}.
Proof.
  exact (VKurse_returns_named_entry "EUR"
           (serving (JDict [("Dollar", JDict [("sale", JStr "27.5"); ("buy", JStr "27.0")]);
                            ("Euro", JDict [("sale", JStr "30.5"); ("buy", JStr "29.5")])]))
           [("Dollar", JDict [("sale", JStr "27.5"); ("buy", JStr "27.0")]);
            ("Euro", JDict [("sale", JStr "30.5"); ("buy", JStr "29.5")])]
           "Euro" (JDict [("sale", JStr "30.5"); ("buy", JStr "29.5")])
           (JStr "30.5") (JStr "29.5") 30.5%float 29.5%float
           eq_refl (serving_delivers _ _) eq_refl eq_refl eq_refl eq_refl eq_refl "UAH").
Defined.

(** X7. For the VKurse class, with [from] in the name table, a response
    that parses to anything but an object (an array, a string, a number,
    [null]) makes [get_rate] raise [AttributeError], from the call of
    [.get] on it. *)
Theorem VKurse_rejects_non_object
    (from to : string) (net : network) (body : json) :
  translated VKurseProvider from to = true ->
  delivers net VKurseProvider body ->
  (forall d, body <> JDict d) ->
  rate VKurseProvider from to net = Raise AttributeError.
Proof.
  intros Ht Hd Hb. cbn [translated] in Ht.
  destruct (english_name from) as [key|] eqn:Hk; [|discriminate].
  unfold rate, call, get_rate. cbn [start heap init self cls].
  rewrite (VKurse_run net (start VKurseProvider from to) _ key Hd Hk).
  destruct body; try reflexivity. now destruct (Hb d).
Qed.

Lemma VKurse_rejects_non_object_witness :
  rate VKurseProvider "USD" "UAH" (serving (JList [])) = Raise AttributeError.
Proof.
  refine (VKurse_rejects_non_object "USD" "UAH" (serving (JList [])) (JList [])
            eq_refl (serving_delivers _ _) _).
  intros d H. discriminate H.
Defined.

(** ** Bodies that are no arrays *)

(** X8. In the three scanning classes the loop runs over whatever the
    body parses to.  A non-empty object (as an API sends for an error
    message) makes [get_rate] raise [TypeError], since the loop goes over
    its keys and subscripts a string; [null], a number or a boolean raise
    [TypeError] as well; an empty object raises [RateNotFound] like an
    empty array. *)
Theorem scanning_class_on_non_array
    (C : provider_class) (from to : string) (net : network) (body : json) :
  array_scanning C = true ->
  translated C from to = true ->
  delivers net C body ->
  match body with
  | JList _ | JStr _ => True
  | JDict [] =>
      rate C from to net =
        Raise (RateNotFound (not_found_message from to (class_name C)))
  | JDict (_ :: _) | JNull | JBool _ | JInt _ | JFloat _ =>
      rate C from to net = Raise TypeError
  end.
Proof.
  intros HC Ht Hd.
  destruct body as [| | | | | |d]; try exact I;
    unfold rate; rewrite (call_scan C from to net _ HC Ht Hd); cbn [snd];
    try reflexivity.
  destruct d as [|[k v] d]; [reflexivity|].
  unfold scan_outcome. cbn [py_iter map fst rbind first_hit].
  destruct C; try discriminate HC; cbn [step_of]; try reflexivity.
  destruct (translated_Mono _ _ Ht) as (a & b & -> & ->). reflexivity.
Qed.

Lemma scanning_class_on_non_array_witness :
  rate MonoProvider "USD" "UAH"
    (serving (JDict [("errorDescription", JStr "Too many requests")])) =
    Raise TypeError.
Proof.
  exact (scanning_class_on_non_array MonoProvider "USD" "UAH"
           (serving (JDict [("errorDescription", JStr "Too many requests")]))
           (JDict [("errorDescription", JStr "Too many requests")])
           eq_refl eq_refl (serving_delivers _ _)).
Defined.

(** ** [RateNotFound] is raised only when nothing matched *)

Lemma on_match_not_found {A} (r : result A) :
  is_rate_not_found r = false -> is_rate_not_found (on_match r) = false.
Proof. now destruct r. Qed.

Lemma step_not_found (C : provider_class) (from to : string) (x : json) :
  is_rate_not_found (step_of C from to x) = false.
Proof.
  pose proof (value_of_not_found MonoProvider x) as Hm.
  pose proof (value_of_not_found PrivatbankProvider x) as Hp.
  pose proof (value_of_not_found NationalBankProvider x) as Hb.
  cbn [value_of] in Hm, Hp, Hb.
  destruct C; cbn [step_of]; try reflexivity.
  - destruct (numeric from); [destruct (numeric to)|]; try reflexivity.
    unfold mono_step.
    apply rbind_not_found; [apply subscript_not_found | intros a].
    destruct (py_eq_int a _); [|reflexivity].
    apply rbind_not_found; [apply subscript_not_found | intros b].
    destruct (py_eq_int b _); [|reflexivity]. now apply on_match_not_found.
  - unfold privatbank_step.
    apply rbind_not_found; [apply subscript_not_found | intros a].
    destruct (py_eq_str a _); [|reflexivity].
    apply rbind_not_found; [apply subscript_not_found | intros b].
    destruct (py_eq_str b _); [|reflexivity]. now apply on_match_not_found.
  - unfold nationalbank_step.
    apply rbind_not_found; [apply subscript_not_found | intros a].
    destruct (py_eq_str a _); [|reflexivity]. now apply on_match_not_found.
Qed.

Lemma subscript_field (k : string) (r x : json) :
  subscript r k = Ok x -> field k r = Some x.
Proof.
  destruct r; cbn [subscript field]; try discriminate.
  destruct (dict_lookup k d); [now intros [= ->] | discriminate].
Qed.

Lemma on_match_never_none {A} (r : result A) : on_match r <> Ok None.
Proof. now destruct r. Qed.

Lemma step_none_no_match (C : provider_class) (from to : string) (x : json) :
  array_scanning C = true ->
  translated C from to = true ->
  step_of C from to x = Ok None ->
  has_field (key_field C) x = true /\ matches C from to x = false.
Proof.
  intros HC Ht. unfold has_field.
  destruct C; try discriminate HC; cbn [step_of matches key_field].
  - destruct (translated_Mono _ _ Ht) as (a & b & -> & ->).
    unfold mono_step, mono_matches.
    destruct (subscript x "currencyCodeA") as [u|e] eqn:Hu; [|discriminate].
    rewrite (subscript_field _ _ _ Hu). cbn [rbind].
    destruct (py_eq_int u a).
    + destruct (subscript x "currencyCodeB") as [v|e] eqn:Hv; [|discriminate].
      rewrite (subscript_field _ _ _ Hv). cbn [rbind].
      destruct (py_eq_int v b); [|now split].
      intros H. now destruct (on_match_never_none _ H).
    + intros _. split; [reflexivity|]. now destruct (field "currencyCodeB" x).
  - unfold privatbank_step, privatbank_matches.
    destruct (subscript x "ccy") as [u|e] eqn:Hu; [|discriminate].
    rewrite (subscript_field _ _ _ Hu). cbn [rbind].
    destruct (py_eq_str u from).
    + destruct (subscript x "base_ccy") as [v|e] eqn:Hv; [|discriminate].
      rewrite (subscript_field _ _ _ Hv). cbn [rbind].
      destruct (py_eq_str v to); [|now split].
      intros H. now destruct (on_match_never_none _ H).
    + intros _. split; [reflexivity|]. now destruct (field "base_ccy" x).
  - unfold nationalbank_step, nationalbank_matches.
    destruct (subscript x "cc") as [u|e] eqn:Hu; [|discriminate].
    rewrite (subscript_field _ _ _ Hu). cbn [rbind].
    destruct (py_eq_str u from); [|now split].
    intros H. now destruct (on_match_never_none _ H).
Qed.

Lemma untranslated_never_not_found
    (C : provider_class) (from to : string) (net : network) (body : json) :
  delivers net C body ->
  translated C from to = false ->
  is_rate_not_found (rate C from to net) = false.
Proof.
  intros (response & Hn & Hs & _) Ht.
  unfold rate, call, get_rate. cbn [start heap init self cls].
  destruct C; try discriminate Ht; cbn [translated url_of] in *.
  - destruct (numeric from) as [a|] eqn:Ha.
    + destruct (numeric to) as [b|] eqn:Hb; [discriminate|].
      now rewrite (Mono_unmapped_to net (start MonoProvider from to) response a Hn Hs Ha Hb).
    + now rewrite (Mono_unmapped_from net (start MonoProvider from to) response Hn Hs Ha).
  - destruct (english_name from) eqn:Hk; [discriminate|].
    now rewrite (VKurse_unmapped net (start VKurseProvider from to) response Hn Hs Hk).
Qed.

(** X9. When a call whose HTTP exchange succeeded raises [RateNotFound],
    the message is the one of the requested pair and provider, the
    translated codes were in the table, and nothing in the response
    matched: in the scanning classes every item of the body was inspected,
    carried the field the condition reads first and did not match; for
    VKurse the response is an object without the translated key or with a
    false value under it. *)
Theorem RateNotFound_only_when_nothing_matched
    (C : provider_class) (from to : string) (net : network) (body : json) (m : string) :
  delivers net C body ->
  rate C from to net = Raise (RateNotFound m) ->
  m = not_found_message from to (class_name C)
  /\ translated C from to = true
  /\ match C with
     | VKurseProvider =>
         exists key d,
           english_name from = Some key /\ body = JDict d /\
           (dict_lookup key d = None \/
            exists v, dict_lookup key d = Some v /\ truthy v = false)
     | _ =>
         exists items,
           py_iter body = Ok items /\
           Forall (fun r => has_field (key_field C) r = true /\
                            matches C from to r = false) items
     end.
Proof.
  intros Hd Hr.
  assert (Ht : translated C from to = true).
  { destruct (translated C from to) eqn:Ht; [reflexivity|].
    pose proof (untranslated_never_not_found C from to net body Hd Ht) as H.
    now rewrite Hr in H. }
  destruct (array_scanning C) eqn:HC.
  - unfold rate in Hr. rewrite (call_scan C from to net body HC Ht Hd) in Hr.
    cbn [snd] in Hr. unfold scan_outcome in Hr.
    destruct (py_iter body) as [items|e] eqn:Hi.
    + cbn [rbind] in Hr.
      destruct (first_hit (step_of C from to) items) as [[v|]|e] eqn:Hf.
      * discriminate.
      * injection Hr as <-. split; [reflexivity|]. split; [exact Ht|].
        assert (Hall : Forall (fun r => has_field (key_field C) r = true /\
                                        matches C from to r = false) items).
        { eapply Forall_impl; [|exact (first_hit_none _ _ Hf)].
          intros x Hx. now apply step_none_no_match. }
        destruct C; try discriminate HC; now exists items.
      * apply first_hit_raise in Hf as (x & _ & Hx).
        pose proof (step_not_found C from to x) as Hnf.
        rewrite Hx in Hnf. injection Hr as ->. discriminate Hnf.
    + cbn [rbind] in Hr. injection Hr as ->.
      destruct body; discriminate Hi.
  - destruct C; try discriminate HC. pose proof Ht as Ht'. cbn [translated] in Ht.
    destruct (english_name from) as [key|] eqn:Hk; [|discriminate].
    unfold rate, call, get_rate in Hr. cbn [start heap init self cls] in Hr.
    rewrite (VKurse_run net (start VKurseProvider from to) _ key Hd Hk) in Hr.
    destruct body as [| | | | | |d]; try discriminate Hr.
    cbn [py_get] in Hr.
    destruct (dict_lookup key d) as [v|] eqn:Hl.
    + destruct (truthy v) eqn:Hv.
      * cbn [snd] in Hr.
        pose proof (value_of_not_found VKurseProvider v) as Hnf.
        cbn [value_of] in Hnf. rewrite Hr in Hnf. discriminate Hnf.
      * cbn in Hr. injection Hr as <-.
        split; [reflexivity|]. split; [exact Ht'|].
        exists key, d. repeat split. right. now exists v.
    + cbn in Hr. injection Hr as <-.
      split; [reflexivity|]. split; [exact Ht'|].
      exists key, d. repeat split. now left.
Qed.

Lemma RateNotFound_only_when_nothing_matched_witness :
  exists items,
    py_iter (JList [privat_lowercase]) = Ok items /\
    Forall (fun r => has_field "ccy" r = true /\
                     matches PrivatbankProvider "USD" "UAH" r = false) items.
Proof.
  exact (proj2 (proj2 (RateNotFound_only_when_nothing_matched PrivatbankProvider
                         "USD" "UAH" (serving (JList [privat_lowercase]))
                         (JList [privat_lowercase])
                         "Cannot find rate from USD to UAH in provider privatbank"
                         (serving_delivers _ _) eq_refl))).
Defined.

(** ** The national bank with integer rates *)

(** X10. For the national bank class, a rate written as a JSON integer is
    converted: the first record whose [cc] is [from], with the integer
    rate [z], gives [buy = float(z)] and [sell = float(z) + 0.5]; an
    integer beyond the range of floats makes the call raise
    [OverflowError]. *)
Theorem NationalBank_integer_rate
    (from to : string) (net : network) (pre post : list json) (r : json) (z : Z) :
  delivers net NationalBankProvider (JList (pre ++ r :: post)) ->
  forallb (fun c => has_field "cc" c && negb (nationalbank_matches from c)) pre = true ->
  field "cc" r = Some (JStr from) ->
  field "rate" r = Some (JInt z) ->
  rate NationalBankProvider from to net =
    match PyFloat.of_int z with
    | Ok f => Ok {| sell := (f + 0.5)%float; buy := f |}
    | Raise _ => Raise OverflowError
    end.
Proof.
  intros Hd Hpre Hcc Hrate.
  assert (Hm : matches NationalBankProvider from to r = true).
  { cbn [matches]. unfold nationalbank_matches. rewrite Hcc.
    cbn [py_eq_str]. apply String.eqb_refl. }
  unfold rate.
  rewrite (call_first_match NationalBankProvider from to net pre post r
             eq_refl eq_refl Hd Hpre Hm).
  cbn [snd value_of]. unfold nationalbank_value.
  rewrite (field_subscript _ _ _ Hrate). cbn [rbind py_float py_add_float].
  unfold PyFloat.of_int.
  now destruct (PrimFloat.is_infinity (PyFloat.round_Z z)).
Qed.

Lemma NationalBank_integer_rate_witness :
  rate NationalBankProvider "USD" "UAH"
    (serving (JList [JDict [("cc", JStr "USD"); ("rate", JInt 27)]])) =
    Ok {| sell := 27.5; buy := 27 |}.
Proof.
  exact (NationalBank_integer_rate "USD" "UAH"
           (serving (JList [JDict [("cc", JStr "USD"); ("rate", JInt 27)]]))
           [] [] (JDict [("cc", JStr "USD"); ("rate", JInt 27)]) 27
           (serving_delivers _ _) eq_refl eq_refl eq_refl).
Defined.

(** ** The calls made on the HTTP layer *)

Lemma quiet_ret {A} (a : A) : quiet (ret a).
Proof. now intros w. Qed.

Lemma quiet_raise {A} (e : exn) : quiet (@raise A e).
Proof. now intros w. Qed.

Lemma quiet_lift {A} (r : result A) : quiet (lift r).
Proof. now intros w. Qed.

Lemma quiet_read {A} (a : store -> A) : quiet (read a).
Proof. now intros w. Qed.

Lemma quiet_bind {A B} (m : M A) (k : A -> M B) :
  quiet m -> (forall a, quiet (k a)) -> quiet (bind m k).
Proof.
  intros Hm Hk w. unfold bind. specialize (Hm w).
  destruct (m w) as [w' [a|e]]; cbn [fst] in *; subst w'; [apply Hk | reflexivity].
Qed.

Lemma quiet_if {A} (b : bool) (m1 m2 : M A) :
  quiet m1 -> quiet m2 -> quiet (if b then m1 else m2).
Proof. now destruct b. Qed.

Lemma quiet_dict_subscript {V} (d : list (string * V)) (k : string) :
  quiet (dict_subscript d k).
Proof.
  unfold dict_subscript. destruct (dict_lookup k d); [apply quiet_ret | apply quiet_raise].
Qed.

Lemma quiet_for_each {A} (body : json -> M (option A)) (l : list json) :
  (forall x, quiet (body x)) -> quiet (for_each body l).
Proof.
  intros Hb. induction l as [|x l IH]; cbn [for_each]; [apply quiet_ret|].
  apply quiet_bind; [apply Hb|].
  intros [a|]; [apply quiet_ret | exact IH].
Qed.

Ltac quiet_step :=
  first
    [ apply quiet_ret | apply quiet_raise | apply quiet_lift | apply quiet_read
    | apply quiet_dict_subscript
    | apply quiet_for_each; intros ?
    | apply quiet_if
    | apply quiet_bind; [|intros ?]
    | match goal with |- quiet (match ?x with _ => _ end) => destruct x end ].

Ltac quiet_auto :=
  unfold mono_body, privatbank_body, nationalbank_body, raise_not_found;
  repeat quiet_step.

Lemma parses_response_json (response : Response) :
  parses_at_most_once (response_json response).
Proof. intros w. right. reflexivity. Qed.

Lemma parses_quiet_bind {A B} (m : M A) (k : A -> M B) :
  quiet m -> (forall a, parses_at_most_once (k a)) -> parses_at_most_once (bind m k).
Proof.
  intros Hm Hk w. unfold bind. specialize (Hm w).
  destruct (m w) as [w' [a|e]]; cbn [fst] in *; subst w'; [apply Hk | now left].
Qed.

Lemma parses_bind_quiet {A B} (m : M A) (k : A -> M B) :
  parses_at_most_once m -> (forall a, quiet (k a)) -> parses_at_most_once (bind m k).
Proof.
  intros Hm Hk w. unfold bind. specialize (Hm w).
  destruct (m w) as [w' [a|e]]; cbn [fst] in *; [|exact Hm].
  rewrite (Hk a w'). exact Hm.
Qed.

Ltac parses_auto :=
  repeat (apply parses_quiet_bind; [solve [quiet_auto] | intros ?]);
  apply parses_bind_quiet; [apply parses_response_json | intros ?; solve [quiet_auto]].

(** After the status check a method calls [json()] at most once. *)
Lemma get_rate_rest (net : network) (w : world) :
  exists k,
    get_rate net w = prologue net (url_of (cls (self (heap w)))) k w /\
    forall response, parses_at_most_once (k response).
Proof.
  unfold get_rate.
  destruct (cls (self (heap w))); eexists; (split; [reflexivity|]);
    intros response; cbv beta; parses_auto.
Qed.

Lemma get_rate_trace (net : network) (w : world) :
  exists t : list event,
    fst (get_rate net w) = {| heap := heap w; log := log w ++ t |} /\
    (t = [EvGet (url_of (cls (self (heap w))))] \/
     t = [EvGet (url_of (cls (self (heap w)))); EvRaiseForStatus] \/
     t = [EvGet (url_of (cls (self (heap w)))); EvRaiseForStatus; EvJson]).
Proof.
  destruct (get_rate_rest net w) as (k & -> & Hk).
  destruct (net (url_of (cls (self (heap w))))) as [response|e] eqn:Hn.
  - destruct (status_error response) as [e|] eqn:Hs.
    + rewrite (prologue_refused net w _ k response e Hn Hs). eexists. split; [reflexivity|auto].
    + rewrite (prologue_passed net w _ k response Hn Hs).
      destruct (Hk response
                  {| heap := heap w;
                     log := log w ++ [EvGet (url_of (cls (self (heap w)))); EvRaiseForStatus] |})
        as [-> | ->]; cbn [heap log].
      * eexists. split; [reflexivity|auto].
      * rewrite <- app_assoc. cbn [app]. eexists. split; [reflexivity|auto].
  - rewrite (prologue_failed net w _ k e Hn). eexists. split; [reflexivity|auto].
Qed.

(** X11. Every call of [get_rate], of every class, on every network and
    whatever its outcome, makes exactly one GET, to the fixed URL of the
    class, and it is the first call on the HTTP layer; the status check
    follows at most once, and [json()] at most once and only after the
    status check.  There is no retry and no second request. *)
Theorem exactly_one_get_per_call (net : network) (w : world) :
  exists t : list event,
    log (fst (get_rate net w)) = (log w ++ EvGet (url_of (cls (self (heap w)))) :: t)%list
    /\ (t = [] \/ t = [EvRaiseForStatus] \/ t = [EvRaiseForStatus; EvJson])
    /\ count_gets (EvGet (url_of (cls (self (heap w)))) :: t) = 1%nat.
Proof.
  destruct (get_rate_trace net w) as (t & -> & [-> | [-> | ->]]); cbn [log];
    eexists; (split; [reflexivity|]); split; auto.
Qed.

(** ** Successive calls *)

Lemma blind_ret {A} (a : A) : log_blind (ret a).
Proof.
  intros w w' H. repeat split. exists []. now rewrite !app_nil_r.
Qed.

Lemma blind_raise {A} (e : exn) : log_blind (@raise A e).
Proof.
  intros w w' H. repeat split. exists []. now rewrite !app_nil_r.
Qed.

Lemma blind_lift {A} (r : result A) : log_blind (lift r).
Proof.
  intros w w' H. repeat split. exists []. now rewrite !app_nil_r.
Qed.

Lemma blind_read {A} (a : store -> A) : log_blind (read a).
Proof.
  intros w w' H. unfold read. cbn [fst snd]. rewrite H. repeat split.
  exists []. now rewrite !app_nil_r.
Qed.

Lemma blind_emit (e : event) : log_blind (emit e).
Proof.
  intros w w' H. repeat split. now exists [e].
Qed.

Lemma blind_bind {A B} (m : M A) (k : A -> M B) :
  log_blind m -> (forall a, log_blind (k a)) -> log_blind (bind m k).
Proof.
  intros Hm Hk w w' H. unfold bind.
  destruct (Hm w w' H) as (Hr & Hh & Hh' & t & Ht & Ht').
  destruct (m w) as [w1 [a|e]], (m w') as [w1' [a'|e']];
    cbn [fst snd] in *; try discriminate Hr.
  - injection Hr as <-.
    assert (H1 : heap w1 = heap w1') by congruence.
    destruct (Hk a w1 w1' H1) as (Hr2 & Hh2 & Hh2' & t2 & Ht2 & Ht2').
    split; [exact Hr2|]. split; [congruence|]. split; [congruence|].
    exists (t ++ t2)%list. rewrite Ht2, Ht2', Ht, Ht', !app_assoc. now split.
  - split; [congruence|]. split; [exact Hh|]. split; [exact Hh'|]. now exists t.
Qed.

Lemma blind_if {A} (b : bool) (m1 m2 : M A) :
  log_blind m1 -> log_blind m2 -> log_blind (if b then m1 else m2).
Proof. now destruct b. Qed.

Lemma blind_dict_subscript {V} (d : list (string * V)) (k : string) :
  log_blind (dict_subscript d k).
Proof.
  unfold dict_subscript. destruct (dict_lookup k d); [apply blind_ret | apply blind_raise].
Qed.

Lemma blind_for_each {A} (body : json -> M (option A)) (l : list json) :
  (forall x, log_blind (body x)) -> log_blind (for_each body l).
Proof.
  intros Hb. induction l as [|x l IH]; cbn [for_each]; [apply blind_ret|].
  apply blind_bind; [apply Hb|].
  intros [a|]; [apply blind_ret | exact IH].
Qed.

Ltac blind_step :=
  first
    [ apply blind_ret | apply blind_raise | apply blind_lift | apply blind_read
    | apply blind_emit | apply blind_dict_subscript
    | apply blind_for_each; intros ?
    | apply blind_if
    | apply blind_bind; [|intros ?]
    | match goal with |- log_blind (match ?x with _ => _ end) => destruct x end ].

Lemma blind_get_rate (net : network) : log_blind (get_rate net).
Proof.
  assert (H1 : log_blind (MonoProvider_get_rate net)).
  { unfold MonoProvider_get_rate, mono_body, requests_get, raise_for_status,
      response_json, raise_not_found. repeat blind_step. }
  assert (H2 : log_blind (PrivatbankProvider_get_rate net)).
  { unfold PrivatbankProvider_get_rate, privatbank_body, requests_get, raise_for_status,
      response_json, raise_not_found. repeat blind_step. }
  assert (H3 : log_blind (NationalBankProvider_get_rate net)).
  { unfold NationalBankProvider_get_rate, nationalbank_body, requests_get,
      raise_for_status, response_json, raise_not_found. repeat blind_step. }
  assert (H4 : log_blind (VKurseProvider_get_rate net)).
  { unfold VKurseProvider_get_rate, requests_get, raise_for_status,
      response_json, raise_not_found. repeat blind_step. }
  intros w w' H. unfold get_rate.
  replace (cls (self (heap w'))) with (cls (self (heap w))) by now rewrite H.
  destruct (cls (self (heap w))); [apply H1 | apply H2 | apply H3 | apply H4];
    exact H.
Qed.

(** X12. Nothing is cached between calls and a call leaves nothing behind
    that a later call reads: a second [get_rate] on the same object makes
    its own GET, and with it the same calls on the HTTP layer as the
    first, and on a network that answers as before it has the outcome of
    the first call. *)
Theorem second_call_repeats_the_exchange (net : network) (w : world) :
  let w1 := fst (get_rate net w) in
  let w2 := fst (get_rate net w1) in
  snd (get_rate net w1) = snd (get_rate net w)
  /\ heap w2 = heap w
  /\ exists t : list event,
       log w1 = (log w ++ t)%list /\
       log w2 = (log w ++ t ++ t)%list /\
       count_gets t = 1%nat.
Proof.
  intros w1 w2.
  assert (Hh : heap w = heap w1) by (symmetry; apply frame_get_rate).
  destruct (blind_get_rate net w w1 Hh) as (Hr & _ & Hh2 & t & Ht & Ht').
  fold w1 in Ht. fold w2 in Ht', Hh2.
  split; [now symmetry|]. split; [congruence|].
  exists t. split; [exact Ht|]. split.
  - rewrite Ht', Ht. now rewrite app_assoc.
  - destruct (get_rate_trace net w) as (t0 & H0 & Hc). fold w1 in H0.
    rewrite H0 in Ht. cbn [log] in Ht. apply app_inv_head in Ht. subst t0.
    now destruct Hc as [-> | [-> | ->]].
Qed.

(** ** Rates that cannot be cast *)

(** X13. In the three scanning classes, when the rate field the
    conversion of the first matching record reads first cannot be cast by
    [float()] ([ValueError] for a string that is no number, [TypeError]
    for [null], an array or an object), the call raises the exception of
    the cast; no default value stands in for the rate and no later record
    is tried. *)
Theorem uncastable_rate_raises
    (C : provider_class) (from to : string) (net : network)
    (pre post : list json) (r x : json) (e : exn) :
  array_scanning C = true ->
  delivers net C (JList (pre ++ r :: post)) ->
  forallb (fun c => record_shape C c && negb (matches C from to c)) pre = true ->
  matches C from to r = true ->
  field (first_rate_field C) r = Some x ->
  py_float x = Raise e ->
  rate C from to net = Raise e
  /\ (e = ValueError \/ e = TypeError \/ e = OverflowError).
Proof.
  intros HC Hd Hpre Hm Hx He. split.
  - unfold rate.
    rewrite (call_first_match C from to net pre post r HC
               (matches_translated C from to r Hm) Hd Hpre Hm).
    cbn [snd].
    destruct C; try discriminate HC; cbn [value_of first_rate_field] in *;
      unfold mono_value, privatbank_value, nationalbank_value;
      rewrite (field_subscript _ _ _ Hx); cbn [rbind]; now rewrite He.
  - destruct x; cbn [py_float] in He; try discriminate He;
      try (injection He as <-; auto).
    + unfold PyFloat.of_int in He.
      destruct (is_infinity _); [injection He as <-; auto | discriminate].
    + destruct (PyFloat.of_str s); [discriminate | injection He as <-; auto].
Qed.

Lemma uncastable_rate_raises_witness :
  rate MonoProvider "USD" "UAH"
    (serving (JList [JDict [("currencyCodeA", JInt 840); ("currencyCodeB", JInt 980);
                            ("rateSell", JStr "n/a"); ("rateBuy", JStr "27.0")];
                     mono_usd_uah])) = Raise ValueError.
Proof.
  exact (proj1 (uncastable_rate_raises MonoProvider "USD" "UAH"
                  (serving (JList [JDict [("currencyCodeA", JInt 840);
                                          ("currencyCodeB", JInt 980);
                                          ("rateSell", JStr "n/a");
                                          ("rateBuy", JStr "27.0")];
                                   mono_usd_uah]))
                  [] [mono_usd_uah]
                  (JDict [("currencyCodeA", JInt 840); ("currencyCodeB", JInt 980);
                          ("rateSell", JStr "n/a"); ("rateBuy", JStr "27.0")])
                  (JStr "n/a") ValueError
                  eq_refl (serving_delivers _ _) eq_refl eq_refl eq_refl eq_refl)).
Defined.
